(** * Forms of the inline-forms package: response validation and dispatch

    A shallow embedding of the Go package [form] (custom forms, menus and
    modals sent to a Minecraft client) together with the properties of its
    response handling ([SubmitJSON], the elements' [submit]) and of its
    serialisation ([MarshalJSON]).

    Conventions of the embedding:
    - a Go [string] and a [[]byte] are a [string] of 8-bit characters;
    - [int] and [uint] are 64 bits wide, [int64]/[uint64] values are
      integers of [Z] with the range checks of the code written out;
    - [float64] is [spec_float] at precision 53 and maximal exponent 1024,
      compared with the IEEE comparisons [SFltb];
    - a slice is [option (list A)], [None] being the [nil] slice;
    - a callback field is [option func]: [None] is a [nil] func, [Some f] a
      function named by the handle [f]; calling it appends a [Call] to the
      trace returned by the method;
    - a method with an [error] result returns an [outcome]; indexing a
      slice out of range is the outcome [Panic];
    - a document written by [json.Marshal] is a [JSON] value, whose strings
      are the Go strings coerced to valid UTF-8. *)

From Stdlib Require Import ZArith Lia Ascii String Floats.SpecFloat.
From stdpp Require Import base gmap list strings.

Set Warnings "-register-all".
Local Open Scope Z_scope.

(** ** Go values *)

Definition slice (A : Type) : Type := option (list A).

Definition elems {A} (s : slice A) : list A := default [] s.

Definition len {A} (s : slice A) : Z := Z.of_nat (length (elems s)).

(** [s[i]] for an index [i] of type [int], [int64] or [uint]: [None] where Go
    panics with an index out of range. *)
Definition slice_at {A} (s : slice A) (i : Z) : option A :=
  if i <? 0 then None else elems s !! Z.to_nat i.

(** [append(s, x)] *)
Definition append {A} (s : slice A) (x : A) : slice A := Some (elems s ++ [x]).

Definition float64 : Type := spec_float.
Definition prec64 : Z := 53.
Definition emax64 : Z := 1024.

(** The conversion [uint(n)]. *)
Definition uint (n : Z) : Z := n mod 2 ^ 64.

Definition maxUint64 : Z := 2 ^ 64 - 1.
Definition maxInt : Z := 2 ^ 63 - 1.

(** Handle naming a Go function value. *)
Definition func : Type := nat.

(** The [*world.Tx] handed through to the callbacks of a menu; the package
    never looks inside it. *)
Definition Tx : Type := nat.

(** ** strconv *)

Module strconv.

Inductive NumError : Type := ErrSyntax | ErrRange.

Definition byte_of (c : ascii) : Z := Z.of_N (N_of_ascii c).

(** ['0' <= c && c <= '9'], with [d = c - '0']. *)
Definition digit (c : ascii) : option Z :=
  let b := byte_of c in
  if (48 <=? b) && (b <=? 57) then Some (b - 48) else None.

(** Smallest number such that [cutoff*10 > maxUint64]. *)
Definition cutoff10 : Z := maxUint64 / 10 + 1.

(** The loop of [ParseUint(s, 10, 64)] on the bytes of [s], [n] being the
    value read so far. In base 10 only the decimal digits pass
    [d >= byte(base)], and no underscore is allowed. *)
Fixpoint ParseUint_loop (s : string) (n : Z) : Z * option NumError :=
  match s with
  | EmptyString => (n, None)
  | String c s' =>
      match digit c with
      | None => (0, Some ErrSyntax)
      | Some d =>
          if cutoff10 <=? n then (maxUint64, Some ErrRange)
          else
            let n := n * 10 in
            let n1 := (n + d) mod 2 ^ 64 in
            if (n1 <? n) || (maxUint64 <? n1) then (maxUint64, Some ErrRange)
            else ParseUint_loop s' n1
      end
  end.

(** [strconv.ParseUint(s, 10, 64)] *)
Definition ParseUint (s : string) : Z * option NumError :=
  match s with
  | EmptyString => (0, Some ErrSyntax)
  | _ => ParseUint_loop s 0
  end.

(** [strconv.ParseInt(s, 10, 64)] *)
Definition ParseInt (s : string) : Z * option NumError :=
  match s with
  | EmptyString => (0, Some ErrSyntax)
  | String c s' =>
      let '(neg, s1) :=
        if Ascii.eqb c "+"%char then (false, s')
        else if Ascii.eqb c "-"%char then (true, s')
        else (false, s) in
      match ParseUint s1 with
      | (_, Some ErrSyntax) => (0, Some ErrSyntax)
      | (un, _) =>
          let cutoff := 2 ^ 63 in
          if negb neg && (cutoff <=? un) then (cutoff - 1, Some ErrRange)
          else if neg && (cutoff <? un) then (- cutoff, Some ErrRange)
          else (if neg then - un else un, None)
      end
  end.

(** *** Decimal literals

    [ParseFloat] is embedded on the literals that can reach it in this
    package: a [json.Number] comes out of a [json.Decoder], which has checked
    it against the number grammar of JSON: an optional minus sign, an integer
    part without a leading zero (or a single zero), an optional fraction of a
    dot and digits, an optional exponent of [e] or [E], a sign and digits. *)

Record literal : Type := Literal {
  lit_neg : bool;
  lit_int : list Z;
  lit_frac : option (list Z);
  lit_exp : option Z
}.

(** The longest prefix of decimal digits, and what follows it. *)
Fixpoint digits_of (s : string) : list Z * string :=
  match s with
  | EmptyString => ([], s)
  | String c s' =>
      match digit c with
      | Some d => let '(ds, r) := digits_of s' in (d :: ds, r)
      | None => ([], s)
      end
  end.

(** One more decimal digit [d] after the number [n]. *)
Definition step (n d : Z) : Z := n * 10 + d.

Definition decimal_value (ds : list Z) : Z := fold_left step ds 0.

Definition parse_sign (s : string) : bool * string :=
  match s with
  | String c s' => if Ascii.eqb c "-"%char then (true, s') else (false, s)
  | EmptyString => (false, s)
  end.

Definition parse_frac (s : string) : option (list Z) * string :=
  match s with
  | String c s' =>
      if Ascii.eqb c "."%char
      then let '(ds, r) := digits_of s' in (Some ds, r)
      else (None, s)
  | EmptyString => (None, s)
  end.

(** The exponent part, which must reach the end of the literal. *)
Definition parse_exp (s : string) : option (option Z) :=
  match s with
  | EmptyString => Some None
  | String c s' =>
      if Ascii.eqb c "e"%char || Ascii.eqb c "E"%char then
        let '(eneg, s1) :=
          match s' with
          | String c' r =>
              if Ascii.eqb c' "+"%char then (false, r)
              else if Ascii.eqb c' "-"%char then (true, r)
              else (false, s')
          | EmptyString => (false, s')
          end in
        match digits_of s1 with
        | ((_ :: _) as ds, EmptyString) =>
            Some (Some (if eneg then - decimal_value ds else decimal_value ds))
        | _ => None
        end
      else None
  end.

(** The integer part is not empty and has no leading zero; the fraction,
    when there is one, has a digit. *)
Definition int_part_ok (ip : list Z) : bool :=
  match ip with
  | [] => false
  | 0 :: _ :: _ => false
  | _ => true
  end.

Definition frac_part_ok (fp : option (list Z)) : bool :=
  match fp with
  | Some [] => false
  | _ => true
  end.

Definition parse_literal (s : string) : option literal :=
  let '(neg, s1) := parse_sign s in
  let '(ip, s2) := digits_of s1 in
  let '(fp, s3) := parse_frac s2 in
  if int_part_ok ip && frac_part_ok fp then
    match parse_exp s3 with
    | Some e => Some (Literal neg ip fp e)
    | None => None
    end
  else None.

(** The float64 nearest to [(-1)^neg * m * 10^e10], ties to even; an
    infinity when that is beyond the largest finite float64. *)
Definition round64 (neg : bool) (m e10 : Z) : float64 :=
  match m with
  | Zpos _ =>
      if 0 <=? e10 then
        binary_round prec64 emax64 neg (Z.to_pos (m * 10 ^ e10)) 0
      else
        let '(q, e, l) :=
          SFdiv_core_binary prec64 emax64 m 0 (10 ^ (- e10)) 0 in
        binary_round_aux prec64 emax64 neg q e l
  | _ => S754_zero neg
  end.

Definition literal_float (l : literal) : float64 :=
  let fd := default [] (lit_frac l) in
  round64 (lit_neg l)
          (decimal_value (lit_int l ++ fd))
          (default 0 (lit_exp l) - Z.of_nat (length fd)).

(** [strconv.ParseFloat(s, 64)] on a literal of the JSON grammar: the
    nearest float64, and [±Inf] with [ErrRange] when the value is too large.
    A value too small for a float64 rounds to zero without an error.

    Only the literals of the JSON grammar are read here, the numbers a
    decoder hands over; every other string is answered with [ErrSyntax]. Go
    reads more than that ([Inf], [NaN], a leading [+], [.5], hexadecimal
    floats, underscores), so the definition stands for [ParseFloat] on the
    numbers of a [decoded] value only, and what is proved of a slider is
    stated for those. *)
Definition ParseFloat (s : string) : float64 * option NumError :=
  match parse_literal s with
  | None => (S754_zero false, Some ErrSyntax)
  | Some l =>
      let f := literal_float l in
      match f with
      | S754_infinity _ => (f, Some ErrRange)
      | _ => (f, None)
      end
  end.

End strconv.

(** ** unicode/utf8 *)

Module utf8.

Import strconv.

(** The table [first] with [acceptRanges]: for a leading byte, the length of
    the sequence and the range its second byte must lie in; [None] is the
    entry [xx] of an illegal leading byte. *)
Definition first (b : Z) : option (Z * (Z * Z)) :=
  if (0xC2 <=? b) && (b <=? 0xDF) then Some (2, (0x80, 0xBF))
  else if b =? 0xE0 then Some (3, (0xA0, 0xBF))
  else if (0xE1 <=? b) && (b <=? 0xEC) then Some (3, (0x80, 0xBF))
  else if b =? 0xED then Some (3, (0x80, 0x9F))
  else if (0xEE <=? b) && (b <=? 0xEF) then Some (3, (0x80, 0xBF))
  else if b =? 0xF0 then Some (4, (0x90, 0xBF))
  else if (0xF1 <=? b) && (b <=? 0xF3) then Some (4, (0x80, 0xBF))
  else if b =? 0xF4 then Some (4, (0x80, 0x8F))
  else None.

(** [c < locb || hicb < c] *)
Definition not_continuation (c : ascii) : bool :=
  (byte_of c <? 0x80) || (0xBF <? byte_of c).

(** [utf8.RuneError], U+FFFD, as the three bytes of its encoding. *)
Definition RuneError : string :=
  String "239" (String "191" (String "189" EmptyString)).

(** [utf8.ValidString] *)
Fixpoint ValidString (s : string) : bool :=
  match s with
  | EmptyString => true
  | String c0 s1 =>
      if byte_of c0 <? 0x80 then ValidString s1
      else
        match first (byte_of c0), s1 with
        | None, _ => false
        | Some _, EmptyString => false
        | Some (size, (lo, hi)), String c1 s2 =>
            if (byte_of c1 <? lo) || (hi <? byte_of c1) then false
            else if size =? 2 then ValidString s2
            else
              match s2 with
              | EmptyString => false
              | String c2 s3 =>
                  if not_continuation c2 then false
                  else if size =? 3 then ValidString s3
                  else
                    match s3 with
                    | EmptyString => false
                    | String c3 s4 =>
                        if not_continuation c3 then false else ValidString s4
                    end
              end
        end
  end.

End utf8.

(** ** Errors, outcomes and traces

    An [error] of the package records the format string of the [fmt.Errorf]
    (or [errors.New]) that built it and, for [%w], the error it wraps; the
    formatted arguments are left out. *)

Inductive error : Type :=
| Errorf (format : string)
| Wrapf (format : string) (cause : error)
| LibError (pkg : string).

Inductive result (A : Type) : Type :=
| Ok (a : A)
| Err (e : error).
Arguments Ok {A} a.
Arguments Err {A} e.

(** What a method with an [error] result does when it stops: it returns
    (the [nil] error is [Return None]) or it panics. *)
Inductive outcome : Type :=
| Return (err : option error)
| Panic.

Definition returns_error (o : outcome) : Prop :=
  exists e, o = Return (Some e).

(** A call of one of the callback fields, with its arguments. *)
Inductive Call : Type :=
| CallInput (f : func) (text : string)
| CallToggle (f : func) (enabled : bool)
| CallSlider (f : func) (value : float64)
| CallDropdown (f : func) (index : Z) (option : string)
| CallButton (f : func) (tx : option Tx)
| CallForm (f : func) (closed : bool) (tx : option Tx).

Definition trace : Type := list Call.

Definition is_element_call (c : Call) : bool :=
  match c with
  | CallInput _ _ | CallToggle _ _ | CallSlider _ _ | CallDropdown _ _ _ => true
  | _ => false
  end.


Definition is_form_call (c : Call) : bool :=
  match c with CallForm _ _ _ => true | _ => false end.

(** [if f != nil { f(args) }] *)
Definition call_if_set (f : option func) (c : func -> Call) : trace :=
  match f with
  | Some f => [c f]
  | None => []
  end.

(** ** encoding/json *)

Module json.

Import strconv.

(** A value decoded into an [any] by a decoder with [UseNumber]: [nil],
    [bool], [json.Number] (the text of the literal), [string], [[]any] or
    [map[string]any]. *)
Inductive any : Type :=
| VNil
| VBool (b : bool)
| VNumber (n : string)
| VString (s : string)
| VArray (l : list any)
| VObject (m : gmap string any).

(** What the decoder guarantees of the values it builds: a number is a
    literal of the JSON grammar and a string is valid UTF-8. *)
Inductive decoded : any -> Prop :=
| decoded_nil : decoded VNil
| decoded_bool b : decoded (VBool b)
| decoded_number n : is_Some (parse_literal n) -> decoded (VNumber n)
| decoded_string s : utf8.ValidString s = true -> decoded (VString s)
| decoded_array l : Forall decoded l -> decoded (VArray l)
| decoded_object m :
    (forall k v, m !! k = Some v -> utf8.ValidString k = true /\ decoded v) ->
    decoded (VObject m).

(** [number, ok := value.(json.Number)] *)
Definition as_Number (value : any) : string * bool :=
  match value with
  | VNumber n => (n, true)
  | _ => (EmptyString, false)
  end.

(** [text, ok := value.(string)] *)
Definition as_string (value : any) : string * bool :=
  match value with
  | VString s => (s, true)
  | _ => (EmptyString, false)
  end.

(** [enabled, ok := value.(bool)] *)
Definition as_bool (value : any) : bool * bool :=
  match value with
  | VBool b => (b, true)
  | _ => (false, false)
  end.

(** [Number.Float64] and [Number.Int64] *)
Definition Float64 (n : string) : float64 * option NumError := ParseFloat n.
Definition Int64 (n : string) : Z * option NumError := ParseInt n.

(** [isSpace] of the scanner. *)
Definition isSpace (c : ascii) : bool :=
  let b := byte_of c in (b =? 32) || (b =? 9) || (b =? 13) || (b =? 10).

Fixpoint trim_left (s : string) : string :=
  match s with
  | String c s' => if isSpace c then trim_left s' else s
  | EmptyString => s
  end.

Fixpoint trim_right (s : string) : string :=
  match s with
  | String c s' =>
      match trim_right s' with
      | EmptyString => if isSpace c then EmptyString else String c EmptyString
      | r => String c r
      end
  | EmptyString => s
  end.

(** The one JSON value of a document, without the white space around it. *)
Definition trim (data : string) : string := trim_right (trim_left data).

(** [json.Unmarshal(data, &value)] for a [bool] variable holding [value]:
    the new content of the variable and the error. [data] must be one JSON
    value between optional white space. [true] and [false] are stored;
    [null] has no effect on a bool and produces no error; any other value is
    an [UnmarshalTypeError] and anything else a [SyntaxError]. *)
Definition Unmarshal_bool (data : string) (value : bool) : bool * option error :=
  let s := trim data in
  if String.eqb s "true" then (true, None)
  else if String.eqb s "false" then (false, None)
  else if String.eqb s "null" then (value, None)
  else (value, Some (LibError "json")).

(** [json.Unmarshal(data, &index)] for a [uint] variable holding [index]: a
    number is stored when [ParseUint] reads it without error; [null] has no
    effect and produces no error; every other document is an error. *)
Definition Unmarshal_uint (data : string) (index : Z) : Z * option error :=
  let s := trim data in
  if String.eqb s "null" then (index, None)
  else
    match parse_literal s with
    | Some _ =>
        match ParseUint s with
        | (n, None) => (n, None)
        | (_, Some _) => (index, Some (LibError "json"))
        end
    | None => (index, Some (LibError "json"))
    end.

(** A JSON document, as [json.Marshal] writes it. *)
Inductive JSON : Type :=
| JNull
| JBool (b : bool)
| JInt (n : Z)
| JFloat (f : float64)
| JString (s : string)
| JArray (l : list JSON)
| JObject (m : gmap string JSON).

(** A float64 is written unless it is a NaN or an infinity
    ([UnsupportedValueError]). *)
Definition marshal_float (f : float64) : result JSON :=
  match f with
  | S754_nan | S754_infinity _ => Err (LibError "json")
  | _ => Ok (JFloat f)
  end.

(** The string that [json.Marshal] writes for a Go string: the string
    coerced to valid UTF-8. The loop of [appendString] copies a byte below
    [utf8.RuneSelf]; at any other byte it calls [utf8.DecodeRuneInString] and,
    when that answers [(RuneError, 1)], writes [\ufffd] and goes on one byte
    further; otherwise it copies the [size] bytes of the rune. [DecodeRuneInString]
    answers [(RuneError, 1)] for a leading byte that the table [first] does
    not know, for a sequence cut short, and for a second, third or fourth
    byte outside its range. The escapes of the text written (quotes, control
    characters, [<], [>], [&], U+2028, U+2029) do not change the string that
    the document holds. *)
Fixpoint coerced (s : string) : string :=
  match s with
  | EmptyString => EmptyString
  | String c0 s1 =>
      if byte_of c0 <? 0x80 then String c0 (coerced s1)
      else
        let invalid := String.append utf8.RuneError (coerced s1) in
        match utf8.first (byte_of c0), s1 with
        | None, _ => invalid
        | Some _, EmptyString => invalid
        | Some (size, (lo, hi)), String c1 s2 =>
            if (byte_of c1 <? lo) || (hi <? byte_of c1) then invalid
            else if size =? 2 then String c0 (String c1 (coerced s2))
            else
              match s2 with
              | EmptyString => invalid
              | String c2 s3 =>
                  if utf8.not_continuation c2 then invalid
                  else if size =? 3
                  then String c0 (String c1 (String c2 (coerced s3)))
                  else
                    match s3 with
                    | EmptyString => invalid
                    | String c3 s4 =>
                        if utf8.not_continuation c3 then invalid
                        else String c0 (String c1 (String c2 (String c3
                               (coerced s4))))
                    end
              end
        end
  end.

(** A [string]. *)
Definition marshal_string (s : string) : JSON := JString (coerced s).

(** A [[]string]: [null] for the nil slice. *)
Definition marshal_strings (s : slice string) : JSON :=
  match s with
  | None => JNull
  | Some l => JArray (marshal_string <$> l)
  end.

(** The documents of a list of values, or the first error. *)
Fixpoint sequence (l : list (result JSON)) : result (list JSON) :=
  match l with
  | [] => Ok []
  | Err e :: _ => Err e
  | Ok j :: l' =>
      match sequence l' with
      | Ok js => Ok (j :: js)
      | Err e => Err e
      end
  end.

(** A slice of values that marshal themselves: [null] for the nil slice. *)
Definition marshal_slice {A} (f : A -> result JSON) (s : slice A) : result JSON :=
  match s with
  | None => Ok JNull
  | Some l =>
      match sequence (f <$> l) with
      | Ok js => Ok (JArray js)
      | Err e => Err e
      end
  end.

Definition err_of (r : result JSON) : option error :=
  match r with Err e => Some e | Ok _ => None end.

Definition doc_of (r : result JSON) : option JSON :=
  match r with Ok j => Some j | Err _ => None end.

(** [json.Marshal(m)] for a [map[string]any] whose values have been
    marshalled one by one: an object with the keys of [m], or the error of a
    value that could not be marshalled. *)
Definition Marshal (m : gmap string (result JSON)) : result JSON :=
  match omap (fun kv => err_of (snd kv)) (map_to_list m) with
  | e :: _ => Err e
  | [] => Ok (JObject (omap doc_of m))
  end.

End json.

Import json.

(** ** Elements of a custom form *)

Definition nothing : trace * outcome := ([], Return None).

Definition fail (format : string) : trace * outcome :=
  ([], Return (Some (Errorf format))).

Module Label.

Record t : Type := { Text : string }.

Definition MarshalJSON (l : t) : result JSON :=
  Marshal (<["type" := Ok (marshal_string "label")]>
          (<["text" := Ok (marshal_string (Text l))]> ∅)).

Definition submit (l : t) (value : any) : trace * outcome := nothing.

End Label.

Module Input.

Record t : Type := {
  Text : string;
  Default : string;
  Placeholder : string;
  Submit : option func
}.

Definition MarshalJSON (i : t) : result JSON :=
  Marshal (<["type" := Ok (marshal_string "input")]>
          (<["text" := Ok (marshal_string (Text i))]>
          (<["default" := Ok (marshal_string (Default i))]>
          (<["placeholder" := Ok (marshal_string (Placeholder i))]> ∅)))).

Definition submit (i : t) (value : any) : trace * outcome :=
  match Submit i with
  | None => nothing
  | Some f =>
      let '(text, ok) := as_string value in
      if negb ok then fail "value %v is not allowed for input element"
      else if negb (utf8.ValidString text) then fail "value %v is not valid UTF8"
      else ([CallInput f text], Return None)
  end.

End Input.

Module Toggle.

Record t : Type := {
  Text : string;
  Default : bool;
  Submit : option func
}.

Definition MarshalJSON (t0 : t) : result JSON :=
  Marshal (<["type" := Ok (marshal_string "toggle")]>
          (<["text" := Ok (marshal_string (Text t0))]>
          (<["default" := Ok (JBool (Default t0))]> ∅))).

Definition submit (t0 : t) (value : any) : trace * outcome :=
  match Submit t0 with
  | None => nothing
  | Some f =>
      let '(enabled, ok) := as_bool value in
      if negb ok then fail "value %v is not allowed for toggle element"
      else ([CallToggle f enabled], Return None)
  end.

End Toggle.

Module Slider.

Record t : Type := {
  Text : string;
  Min : float64;
  Max : float64;
  StepSize : float64;
  Default : float64;
  Submit : option func
}.

Definition MarshalJSON (s : t) : result JSON :=
  Marshal (<["type" := Ok (marshal_string "slider")]>
          (<["text" := Ok (marshal_string (Text s))]>
          (<["min" := marshal_float (Min s)]>
          (<["max" := marshal_float (Max s)]>
          (<["step" := marshal_float (StepSize s)]>
          (<["default" := marshal_float (Default s)]> ∅)))))).

Definition submit (s : t) (value : any) : trace * outcome :=
  match Submit s with
  | None => nothing
  | Some f =>
      let '(number, ok) := as_Number value in
      let '(val, err) := Float64 number in
      if negb ok || bool_decide (is_Some err)
      then fail "value %v is not allowed for toggle element"
      else if SFltb val (Min s) || SFltb (Max s) val
      then fail "slider value %v is out of range %v-%v"
      else ([CallSlider f val], Return None)
  end.

End Slider.

Module Dropdown.

Record t : Type := {
  Text : string;
  Options : slice string;
  DefaultIndex : Z;
  Submit : option func
}.

Definition MarshalJSON (d : t) : result JSON :=
  Marshal (<["type" := Ok (marshal_string "dropdown")]>
          (<["text" := Ok (marshal_string (Text d))]>
          (<["default" := Ok (JInt (DefaultIndex d))]>
          (<["options" := Ok (marshal_strings (Options d))]> ∅)))).

(** [int(val)] is the identity, [val] being an int64 and [int] 64 bits. *)
Definition submit (d : t) (value : any) : trace * outcome :=
  match Submit d with
  | None => nothing
  | Some f =>
      let '(number, ok) := as_Number value in
      let '(val, err) := Int64 number in
      if negb ok || bool_decide (is_Some err)
      then fail "value %v is not allowed for dropdown element"
      else if (val <? 0) || (len (Options d) <=? val)
      then fail "dropdown value %v is out of range %v-%v"
      else
        match slice_at (Options d) val with
        | Some option => ([CallDropdown f val option], Return None)
        | None => ([], Panic)
        end
  end.

End Dropdown.

(** [type StepSlider Dropdown]: the same fields, its own methods. *)
Module StepSlider.

Definition t : Type := Dropdown.t.

Definition MarshalJSON (s : t) : result JSON :=
  Marshal (<["type" := Ok (marshal_string "step_slider")]>
          (<["text" := Ok (marshal_string (Dropdown.Text s))]>
          (<["default" := Ok (JInt (Dropdown.DefaultIndex s))]>
          (<["steps" := Ok (marshal_strings (Dropdown.Options s))]> ∅)))).

Definition submit (s : t) (value : any) : trace * outcome :=
  match Dropdown.Submit s with
  | None => nothing
  | Some f =>
      let '(number, ok) := as_Number value in
      let '(val, err) := Int64 number in
      if negb ok || bool_decide (is_Some err)
      then fail "value %v is not allowed for step slider element"
      else if (val <? 0) || (len (Dropdown.Options s) <=? val)
      then fail "dropdown value %v is out of range %v-%v"
      else
        match slice_at (Dropdown.Options s) val with
        | Some option => ([CallDropdown f val option], Return None)
        | None => ([], Panic)
        end
  end.

End StepSlider.

Module Button.

Record t : Type := {
  Text : string;
  Image : string;
  Submit : option func
}.

Definition MarshalJSON (b : t) : result JSON :=
  let m : gmap string (result JSON) := {["text" := Ok (marshal_string (Text b))]} in
  let m :=
    if negb (String.eqb (Image b) "") then
      let buttonType :=
        if String.prefix "http:" (Image b) || String.prefix "https:" (Image b)
        then "url" else "path" in
      <["image" := Marshal (<["type" := Ok (marshal_string buttonType)]>
                           (<["data" := Ok (marshal_string (Image b))]> ∅))]> m
    else m in
  Marshal m.

End Button.

(** The interface [Element]. Its method [submit] is unexported, so the
    values of the interface are the six element types of the package (a
    pointer to one of them behaves as the element it points to; a nil
    interface is no element and is left out). *)
Inductive Element : Type :=
| ELabel (l : Label.t)
| EInput (i : Input.t)
| EToggle (t : Toggle.t)
| ESlider (s : Slider.t)
| EDropdown (d : Dropdown.t)
| EStepSlider (s : StepSlider.t).

Definition Element_MarshalJSON (e : Element) : result JSON :=
  match e with
  | ELabel l => Label.MarshalJSON l
  | EInput i => Input.MarshalJSON i
  | EToggle t => Toggle.MarshalJSON t
  | ESlider s => Slider.MarshalJSON s
  | EDropdown d => Dropdown.MarshalJSON d
  | EStepSlider s => StepSlider.MarshalJSON s
  end.

Definition Element_submit (e : Element) (value : any) : trace * outcome :=
  match e with
  | ELabel l => Label.submit l value
  | EInput i => Input.submit i value
  | EToggle t => Toggle.submit t value
  | ESlider s => Slider.submit s value
  | EDropdown d => Dropdown.submit d value
  | EStepSlider s => StepSlider.submit s value
  end.

(** The [Submit] field of an element; a label has none. *)
Definition Element_Submit (e : Element) : option (option func) :=
  match e with
  | ELabel _ => None
  | EInput i => Some (Input.Submit i)
  | EToggle t => Some (Toggle.Submit t)
  | ESlider s => Some (Slider.Submit s)
  | EDropdown d => Some (Dropdown.Submit d)
  | EStepSlider s => Some (Dropdown.Submit s)
  end.

(** ** Custom forms *)

Module Custom.

Record t : Type := {
  Title : string;
  Elements : slice Element;
  Submit : option func
}.

(** The loop [for i, element := range form.Elements] from index [i] on,
    [elements] being the elements still to visit. *)
Fixpoint submit_from (elements : list Element) (i : Z) (inputData : slice any)
  : trace * outcome :=
  match elements with
  | [] => ([], Return None)
  | element :: rest =>
      match slice_at inputData i with
      | None => ([], Panic)
      | Some value =>
          match Element_submit element value with
          | (tr, Return None) =>
              let '(tr', o) := submit_from rest (i + 1) inputData in
              (tr ++ tr', o)
          | (tr, Return (Some err)) =>
              (tr, Return (Some (Wrapf "error parsing form response value: %w" err)))
          | (tr, Panic) => (tr, Panic)
          end
      end
  end.

Section Decoder.

(** [dec.Decode(&inputData)] of a decoder with [UseNumber] reading [data],
    for [inputData] of type [[]any]: the slice it stores, or its error. The
    decoder belongs to encoding/json; the form only looks at its result. *)
Variable Decode : string -> result (slice any).

(** [data] is [None] for a [nil] byte slice. *)
Definition SubmitJSON (form : t) (data : option string) : trace * outcome :=
  match data with
  | None => (call_if_set (Submit form) (fun f => CallForm f true None), Return None)
  | Some data =>
      match Decode data with
      | Err err =>
          ([], Return (Some (Wrapf "error decoding JSON data to slice: %w" err)))
      | Ok inputData =>
          if negb (len (Elements form) =? len inputData)
          then fail "form JSON data array does not have enough values"
          else
            match submit_from (elems (Elements form)) 0 inputData with
            | (tr, Return None) =>
                (tr ++ call_if_set (Submit form) (fun f => CallForm f false None),
                 Return None)
            | r => r
            end
      end
  end.

End Decoder.

(** The receiver is a pointer: the method returns the form it leaves behind
    together with its result. *)
Definition MarshalJSON (form : t) : t * result JSON :=
  if len (Elements form) =? 0
  then (form, Err (Errorf "menu form requires at least one element"))
  else
    (form,
     Marshal (<["type" := Ok (marshal_string "custom_form")]>
             (<["title" := Ok (marshal_string (Title form))]>
             (<["content" := marshal_slice Element_MarshalJSON (Elements form)]> ∅)))).

(** [Element] appends an element to the bottom of the form. *)
Definition Element (form : t) (element : Element) : t :=
  {| Title := Title form; Elements := append (Elements form) element;
     Submit := Submit form |}.

End Custom.

(** ** Menus (menu.go) *)

Module Menu.

(** The interface [MenuElement] is declared outside the files at hand. The
    form does two things with an element: the type assertion
    [element.(Button)] and, through [json.Marshal], a call of its
    [MarshalJSON]. An element that is not a [Button] (a header, a label, a
    divider, a nil interface) is therefore given by what marshalling it
    yields. *)
Inductive MenuElement : Type :=
| MButton (b : Button.t)
| MOther (marshalled : result JSON).

Definition MenuElement_MarshalJSON (e : MenuElement) : result JSON :=
  match e with
  | MButton b => Button.MarshalJSON b
  | MOther r => r
  end.

Record t : Type := {
  Title : string;
  Content : string;
  Elements : slice MenuElement;
  Submit : option func;
  buttons : slice Button.t
}.

Definition set_buttons (form : t) (bs : slice Button.t) : t :=
  {| Title := Title form; Content := Content form; Elements := Elements form;
     Submit := Submit form; buttons := bs |}.

Definition SubmitJSON (form : t) (data : option string) (tx : Tx) : trace * outcome :=
  match data with
  | None =>
      (call_if_set (Submit form) (fun f => CallForm f true (Some tx)), Return None)
  | Some data =>
      match Unmarshal_uint data 0 with
      | (_, Some err) =>
          ([], Return (Some (Wrapf "cannot parse button index as int: %w" err)))
      | (index, None) =>
          if uint (len (buttons form)) <=? index
          then fail "button index points to invalid button: %v (only %v buttons present)"
          else
            match slice_at (buttons form) index with
            | None => ([], Panic)
            | Some button =>
                (call_if_set (Button.Submit button) (fun f => CallButton f (Some tx))
                 ++ call_if_set (Submit form) (fun f => CallForm f false (Some tx)),
                 Return None)
            end
      end
  end.

(** [form.buttons = append(form.buttons, button)] for the elements that are
    a [Button], in the order of [Elements]. *)
Definition collect (bs : slice Button.t) (element : MenuElement) : slice Button.t :=
  match element with
  | MButton button => append bs button
  | MOther _ => bs
  end.

Definition MarshalJSON (form : t) : t * result JSON :=
  let form := set_buttons form None in
  let form := set_buttons form (fold_left collect (elems (Elements form)) (buttons form)) in
  (form,
   Marshal (<["type" := Ok (marshal_string "form")]>
           (<["title" := Ok (marshal_string (Title form))]>
           (<["content" := Ok (marshal_string (Content form))]>
           (<["elements" := marshal_slice MenuElement_MarshalJSON (Elements form)]> ∅))))).

(** [Element] appends a [MenuElement] to the bottom of the form. *)
Definition Element (form : t) (e : MenuElement) : t :=
  {| Title := Title form; Content := Content form;
     Elements := append (Elements form) e;
     Submit := Submit form; buttons := buttons form |}.

End Menu.

(** ** Menus with a [Buttons] field

    The layout of the menu in which the buttons are a field of the form and
    the callbacks take no transaction. *)

Module ButtonMenu.

Record t : Type := {
  Title : string;
  Content : string;
  Buttons : slice Button.t;
  Submit : option func
}.

Definition SubmitJSON (form : t) (data : option string) : trace * outcome :=
  match data with
  | None => (call_if_set (Submit form) (fun f => CallForm f true None), Return None)
  | Some data =>
      match Unmarshal_uint data 0 with
      | (_, Some err) =>
          ([], Return (Some (Wrapf "cannot parse button index as int: %w" err)))
      | (index, None) =>
          if uint (len (Buttons form)) <=? index
          then fail "button index points to inexistent button: %v (only %v buttons present)"
          else
            match slice_at (Buttons form) index with
            | None => ([], Panic)
            | Some button =>
                (call_if_set (Button.Submit button) (fun f => CallButton f None)
                 ++ call_if_set (Submit form) (fun f => CallForm f false None),
                 Return None)
            end
      end
  end.

Definition MarshalJSON (form : t) : t * result JSON :=
  let form :=
    match Buttons form with
    | None => {| Title := Title form; Content := Content form;
                 Buttons := Some []; Submit := Submit form |}
    | Some _ => form
    end in
  (form,
   Marshal (<["type" := Ok (marshal_string "form")]>
           (<["title" := Ok (marshal_string (Title form))]>
           (<["content" := Ok (marshal_string (Content form))]>
           (<["buttons" := marshal_slice Button.MarshalJSON (Buttons form)]> ∅))))).

(** [Button] appends a button to the bottom of the form. *)
Definition Button (form : t) (button : Button.t) : t :=
  {| Title := Title form; Content := Content form;
     Buttons := append (Buttons form) button; Submit := Submit form |}.

End ButtonMenu.

(** ** Modals *)

Module Modal.

Record t : Type := {
  Title : string;
  Content : string;
  Button1 : Button.t;
  Button2 : Button.t;
  Submit : option func
}.

Definition SubmitJSON (form : t) (data : option string) : trace * outcome :=
  match data with
  | None => (call_if_set (Submit form) (fun f => CallForm f true None), Return None)
  | Some data =>
      match Unmarshal_bool data false with
      | (_, Some err) =>
          ([], Return (Some (Wrapf "error parsing JSON as bool: %w" err)))
      | (value, None) =>
          let button := Button1 form in
          let button := if negb value then Button2 form else button in
          (call_if_set (Button.Submit button) (fun f => CallButton f None)
           ++ call_if_set (Submit form) (fun f => CallForm f false None),
           Return None)
      end
  end.

Definition MarshalJSON (form : t) : t * result JSON :=
  (form,
   Marshal (<["type" := Ok (marshal_string "modal")]>
           (<["title" := Ok (marshal_string (Title form))]>
           (<["content" := Ok (marshal_string (Content form))]>
           (<["button1" := Ok (marshal_string (Button.Text (Button1 form)))]>
           (<["button2" := Ok (marshal_string (Button.Text (Button2 form)))]> ∅)))))).

End Modal.

(** ** The interface [form.Form]

    The three kinds of form, the menu in its two variants, behind the
    methods they share. *)

Inductive Form : Type :=
| FCustom (form : Custom.t)
| FMenu (form : Menu.t)
| FButtonMenu (form : ButtonMenu.t)
| FModal (form : Modal.t).

Definition Form_MarshalJSON (form : Form) : Form * result JSON :=
  match form with
  | FCustom c => let '(c', r) := Custom.MarshalJSON c in (FCustom c', r)
  | FMenu m => let '(m', r) := Menu.MarshalJSON m in (FMenu m', r)
  | FButtonMenu m => let '(m', r) := ButtonMenu.MarshalJSON m in (FButtonMenu m', r)
  | FModal m => let '(m', r) := Modal.MarshalJSON m in (FModal m', r)
  end.

Definition Form_SubmitJSON (Decode : string -> result (slice any))
    (form : Form) (data : option string) (tx : Tx) : trace * outcome :=
  match form with
  | FCustom c => Custom.SubmitJSON Decode c data
  | FMenu m => Menu.SubmitJSON m data tx
  | FButtonMenu m => ButtonMenu.SubmitJSON m data
  | FModal m => Modal.SubmitJSON m data
  end.

Definition Form_Submit (form : Form) : option func :=
  match form with
  | FCustom c => Custom.Submit c
  | FMenu m => Menu.Submit m
  | FButtonMenu m => ButtonMenu.Submit m
  | FModal m => Modal.Submit m
  end.

(** The transaction a form hands to its callbacks: only the menu of menu.go
    passes one on. *)
Definition Form_tx (form : Form) (tx : Tx) : option Tx :=
  match form with
  | FMenu _ => Some tx
  | _ => None
  end.

(** A decoder known on the documents of a table and failing on every other
    one; it stands for the decoder of encoding/json when a form is run on an
    example. *)
Definition table_decoder (table : gmap string (slice any))
  : string -> result (slice any) :=
  fun data =>
    match table !! data with
    | Some inputData => Ok inputData
    | None => Err (LibError "json")
    end.

(** ** Notions of the specification *)

(** The range of an int64. *)
Definition in_int64 (z : Z) : bool := (- 2 ^ 63 <=? z) && (z <=? 2 ^ 63 - 1).

(** The second half of [ParseInt]: the range check on what [ParseUint] read,
    and the sign. *)
Definition after_sign (neg : bool) (r : Z * option strconv.NumError)
  : Z * option strconv.NumError :=
  match r with
  | (_, Some strconv.ErrSyntax) => (0, Some strconv.ErrSyntax)
  | (un, _) =>
      if negb neg && (2 ^ 63 <=? un) then (2 ^ 63 - 1, Some strconv.ErrRange)
      else if neg && (2 ^ 63 <? un) then (- 2 ^ 63, Some strconv.ErrRange)
      else (if neg then - un else un, None)
  end.

(** A JSON integer: a number literal without fraction and without exponent,
    with its value. *)
Definition integer_literal (n : string) : option Z :=
  match strconv.parse_literal n with
  | Some (strconv.Literal neg ip None None) =>
      Some (if neg then - strconv.decimal_value ip else strconv.decimal_value ip)
  | _ => None
  end.

Definition integer_value (value : any) : option Z :=
  match value with
  | VNumber n => integer_literal n
  | _ => None
  end.

Definition is_number (value : any) : bool :=
  match value with VNumber _ => true | _ => false end.

(** The float64 value of a JSON number. *)
Definition float64_value (value : any) : float64 :=
  fst (Float64 (fst (as_Number value))).

(** The value has the wrong JSON type for the element: not a string for an
    input, not a boolean for a toggle, not a number for a slider, not an
    integer for a dropdown or a step slider. A label takes any value. *)
Definition wrong_type (e : Element) (value : any) : bool :=
  match e with
  | ELabel _ => false
  | EInput _ => match value with VString _ => false | _ => true end
  | EToggle _ => match value with VBool _ => false | _ => true end
  | ESlider _ => negb (is_number value)
  | EDropdown _ | EStepSlider _ => bool_decide (integer_value value = None)
  end.

(** The number lies outside the range the element permits: below [Min] or
    above [Max] for a slider, not an index of [Options] for a dropdown or a
    step slider. *)
Definition out_of_range (e : Element) (value : any) : bool :=
  match e with
  | ESlider s =>
      is_number value &&
      (SFltb (float64_value value) (Slider.Min s)
       || SFltb (Slider.Max s) (float64_value value))
  | EDropdown d | EStepSlider d =>
      match integer_value value with
      | Some z => (z <? 0) || (len (Dropdown.Options d) <=? z)
      | None => false
      end
  | _ => false
  end.

(** [Dropdown.submit] and [StepSlider.submit] are the same code up to the
    message of their first error, [format] here. *)
Definition submit_as (format : string) (d : Dropdown.t) (value : any)
  : trace * outcome :=
  match Dropdown.Submit d with
  | None => nothing
  | Some f =>
      let '(number, ok) := as_Number value in
      let '(val, err) := Int64 number in
      if negb ok || bool_decide (is_Some err)
      then fail format
      else if (val <? 0) || (len (Dropdown.Options d) <=? val)
      then fail "dropdown value %v is out of range %v-%v"
      else
        match slice_at (Dropdown.Options d) val with
        | Some option => ([CallDropdown f val option], Return None)
        | None => ([], Panic)
        end
  end.

(** What is said of the [submit] of a dropdown or of a step slider [d] whose
    callback is [f]: an error exactly for a value that is not an integer or
    whose integer is not an index of [Options]; otherwise one call of the
    callback with the index and the option found there, and the nil error. *)
Definition dispatches_by_index (submit : Dropdown.t -> any -> trace * outcome)
    (d : Dropdown.t) (value : any) (f : func) : Prop :=
  (returns_error (snd (submit d value)) <->
     integer_value value = None
     \/ exists z, integer_value value = Some z
                  /\ (z < 0 \/ len (Dropdown.Options d) <= z))
  /\ (~ returns_error (snd (submit d value)) ->
      exists z option,
        integer_value value = Some z
        /\ slice_at (Dropdown.Options d) z = Some option
        /\ submit d value = ([CallDropdown f z option], Return None)).

(** What is said of the [SubmitJSON] of a menu with the buttons [bs] and
    the result [r] on the response [data]: a button callback is called only
    for a decoded index that is a valid index of [bs], namely the callback of
    the button found there; a decoded index at or beyond the number of
    buttons gives an error and no call; and the indexing does not panic. *)
Definition guards_index (bs : slice Button.t) (data : string)
    (r : trace * outcome) : Prop :=
  (forall f tx, CallButton f tx ∈ fst r ->
     exists index button,
       Unmarshal_uint data 0 = (index, None)
       /\ 0 <= index < len bs
       /\ slice_at bs index = Some button
       /\ Button.Submit button = Some f)
  /\ (forall index, Unmarshal_uint data 0 = (index, None) -> len bs <= index ->
      returns_error (snd r) /\ fst r = [])
  /\ snd r <> Panic.



(** The element accepts the value: its [submit] returns the nil error. *)
Definition validates (e : Element) (value : any) : Prop :=
  snd (Element_submit e value) = Return None.

(** The calls made by the elements of [es] on the values [vs], in order. *)
Fixpoint element_calls (es : list Element) (vs : list any) : trace :=
  match es, vs with
  | e :: es', v :: vs' => fst (Element_submit e v) ++ element_calls es' vs'
  | _, _ => []
  end.

(** The elements [es] asked in order to accept the values [vs], up to the
    first error. *)
Fixpoint submit_all (es : list Element) (vs : list any) : trace * outcome :=
  match es, vs with
  | e :: es', v :: vs' =>
      match Element_submit e v with
      | (tr, Return None) =>
          let '(tr', o) := submit_all es' vs' in (tr ++ tr', o)
      | (tr, Return (Some err)) =>
          (tr, Return (Some (Wrapf "error parsing form response value: %w" err)))
      | (tr, Panic) => (tr, Panic)
      end
  | _, _ => ([], Return None)
  end.

(** A float64 that [json.Marshal] can write. *)
Definition writable (f : float64) : bool :=
  match f with
  | S754_nan | S754_infinity _ => false
  | _ => true
  end.

(** What [MarshalJSON] needs of a form to succeed: a custom form has an
    element and its sliders hold numbers that can be written; the elements of
    a menu that are not buttons marshal without error. *)
Definition Element_writable (e : Element) : bool :=
  match e with
  | ESlider s =>
      writable (Slider.Min s) && writable (Slider.Max s)
      && writable (Slider.StepSize s) && writable (Slider.Default s)
  | _ => true
  end.

Definition MenuElement_writable (e : Menu.MenuElement) : bool :=
  match e with
  | Menu.MOther (Err _) => false
  | _ => true
  end.

Definition marshallable (form : Form) : bool :=
  match form with
  | FCustom c =>
      negb (len (Custom.Elements c) =? 0)
      && forallb Element_writable (elems (Custom.Elements c))
  | FMenu m => forallb MenuElement_writable (elems (Menu.Elements m))
  | FButtonMenu _ | FModal _ => true
  end.

(** The value of the ["type"] key and the set of keys of each kind of form. *)
Definition Form_type (form : Form) : string :=
  match form with
  | FCustom _ => "custom_form"
  | FMenu _ | FButtonMenu _ => "form"
  | FModal _ => "modal"
  end.

Definition Form_keys (form : Form) : gset string :=
  match form with
  | FCustom _ => {["type"; "title"; "content"]}
  | FMenu _ => {["type"; "title"; "content"; "elements"]}
  | FButtonMenu _ => {["type"; "title"; "content"; "buttons"]}
  | FModal _ => {["type"; "title"; "content"; "button1"; "button2"]}
  end.

(** The buttons among the elements of a menu, in order; the nil slice when
    there is none. *)
Definition button_of (e : Menu.MenuElement) : option Button.t :=
  match e with Menu.MButton b => Some b | _ => None end.

Definition buttons_of (es : list Menu.MenuElement) : slice Button.t :=
  match omap button_of es with
  | [] => None
  | bs => Some bs
  end.

(** ** Forms and elements of the examples *)

Definition colours : Dropdown.t :=
  {| Dropdown.Text := "colour"; Dropdown.Options := Some ["red"; "green"; "blue"];
     Dropdown.DefaultIndex := 0; Dropdown.Submit := Some 7%nat |}.

Definition silent_input : Input.t :=
  {| Input.Text := "name"; Input.Default := ""; Input.Placeholder := "";
     Input.Submit := None |}.

Definition wide_slider : Slider.t :=
  {| Slider.Text := "amount"; Slider.Min := S754_zero false;
     Slider.Max := S754_infinity false; Slider.StepSize := S754_zero false;
     Slider.Default := S754_zero false; Slider.Submit := Some 3%nat |}.

Definition percent : Slider.t :=
  {| Slider.Text := "volume"; Slider.Min := S754_zero false;
     Slider.Max := S754_finite false 7036874417766400 (-46);
     Slider.StepSize := S754_finite false 4503599627370496 (-52);
     Slider.Default := S754_zero false; Slider.Submit := Some 3%nat |}.

Definition dark_mode : Toggle.t :=
  {| Toggle.Text := "dark mode"; Toggle.Default := false; Toggle.Submit := Some 1%nat |}.

Definition survey : Custom.t :=
  {| Custom.Title := "survey";
     Custom.Elements := Some [EToggle dark_mode; EDropdown colours];
     Custom.Submit := Some 9%nat |}.

Definition answers : gmap string (slice any) :=
  <["[true,2]" := Some [VBool true; VNumber "2"]]>
  (<["[1,2]" := Some [VNumber "1"; VNumber "2"]]>
  (<["[true]" := Some [VBool true]]>
  (<["[true,2,3]" := Some [VBool true; VNumber "2"; VNumber "3"]]> ∅))).

Definition yes : Button.t :=
  {| Button.Text := "yes"; Button.Image := ""; Button.Submit := Some 4%nat |}.

Definition no : Button.t :=
  {| Button.Text := "no"; Button.Image := "textures/blocks/barrier";
     Button.Submit := Some 5%nat |}.

Definition confirm : Modal.t :=
  {| Modal.Title := "confirm"; Modal.Content := "sure?";
     Modal.Button1 := yes; Modal.Button2 := no; Modal.Submit := Some 6%nat |}.

Definition shop : Menu.t :=
  {| Menu.Title := "shop"; Menu.Content := "pick one";
     Menu.Elements := Some [Menu.MButton yes; Menu.MOther (Ok JNull); Menu.MButton no];
     Menu.Submit := Some 2%nat;
     Menu.buttons := Some [yes; no] |}.

Definition old_shop : ButtonMenu.t :=
  {| ButtonMenu.Title := "shop"; ButtonMenu.Content := "pick one";
     ButtonMenu.Buttons := Some [yes; no]; ButtonMenu.Submit := Some 2%nat |}.

Definition fresh_shop : Menu.t := Menu.set_buttons shop None.

Definition empty_form : Custom.t :=
  {| Custom.Title := "empty"; Custom.Elements := Some []; Custom.Submit := None |}.

(** ** Further notions *)

Definition Element_type (e : Element) : string :=
  match e with
  | ELabel _ => "label"
  | EInput _ => "input"
  | EToggle _ => "toggle"
  | ESlider _ => "slider"
  | EDropdown _ => "dropdown"
  | EStepSlider _ => "step_slider"
  end.

Definition Element_keys (e : Element) : gset string :=
  match e with
  | ELabel _ => {["type"; "text"]}
  | EInput _ => {["type"; "text"; "default"; "placeholder"]}
  | EToggle _ => {["type"; "text"; "default"]}
  | ESlider _ => {["type"; "text"; "min"; "max"; "step"; "default"]}
  | EDropdown _ => {["type"; "text"; "default"; "options"]}
  | EStepSlider _ => {["type"; "text"; "default"; "steps"]}
  end.

Definition Element_Text (e : Element) : string :=
  match e with
  | ELabel l => Label.Text l
  | EInput i => Input.Text i
  | EToggle t => Toggle.Text t
  | ESlider s => Slider.Text s
  | EDropdown d | EStepSlider d => Dropdown.Text d
  end.

Definition image_type (image : string) : string :=
  if String.prefix "http:" image || String.prefix "https:" image
  then "url" else "path".

(** The button slice of a menu has a length that a Go slice can have. *)
Definition Form_fits (form : Form) : Prop :=
  match form with
  | FMenu m => len (Menu.buttons m) <= maxInt
  | FButtonMenu m => len (ButtonMenu.Buttons m) <= maxInt
  | FCustom _ | FModal _ => True
  end.

(** [data == nil] *)
Definition is_nil (data : option string) : bool :=
  match data with None => true | Some _ => false end.

Definition is_nan (f : float64) : bool :=
  match f with S754_nan => true | _ => false end.

Definition is_finite (f : float64) : bool :=
  match f with S754_zero _ | S754_finite _ _ _ => true | _ => false end.

(** The element has a callback to call. *)
Definition has_callback (e : Element) : bool :=
  match Element_Submit e with
  | Some (Some _) => true
  | _ => false
  end.

(** The function a call goes to. *)
Definition Call_func (c : Call) : func :=
  match c with
  | CallInput f _ | CallToggle f _ | CallSlider f _ | CallDropdown f _ _
  | CallButton f _ | CallForm f _ _ => f
  end.

(** The number is too large for the float64 of a slider. *)
Definition too_large (e : Element) (value : any) : bool :=
  match e with
  | ESlider _ => negb (is_finite (float64_value value))
  | _ => false
  end.

(** The options of a dropdown or of a step slider have a length that a Go
    slice can have. *)
Definition Element_fits (e : Element) : Prop :=
  match e with
  | EDropdown d | EStepSlider d => len (Dropdown.Options d) <= maxInt
  | _ => True
  end.

(** * Facts *)

(** ** Reading decimal numbers *)

Import strconv.

Lemma digit_range c d : digit c = Some d -> 0 <= d <= 9.
Proof.
  unfold digit. destruct (_ && _) eqn:E; [|discriminate].
  intros [= <-]. apply andb_true_iff in E as [?%Z.leb_le ?%Z.leb_le]. lia.
Qed.

Lemma digits_of_range s : forall ds r,
  digits_of s = (ds, r) -> Forall (fun d => 0 <= d <= 9) ds.
Proof.
  induction s as [|c s IH]; simpl; intros ds r.
  - intros [= <- <-]. constructor.
  - destruct (digit c) as [d|] eqn:Ed.
    + destruct (digits_of s) as [ds' r'] eqn:E. intros [= <- <-].
      constructor; [eapply digit_range; eauto | eapply IH; eauto].
    + intros [= <- <-]. constructor.
Qed.

Lemma accumulate_ge ds : forall n,
  0 <= n -> Forall (fun d => 0 <= d <= 9) ds -> n <= fold_left step ds n.
Proof.
  induction ds as [|d ds IH]; simpl; intros n Hn Hds; [lia|].
  inversion Hds; subst. unfold step at 2.
  etransitivity; [|apply IH; auto; lia]. lia.
Qed.

Lemma ParseUint_loop_digits s : forall n ds,
  digits_of s = (ds, EmptyString) -> 0 <= n <= maxUint64 ->
  ParseUint_loop s n =
    if fold_left step ds n <=? maxUint64
    then (fold_left step ds n, None) else (maxUint64, Some ErrRange).
Proof.
  induction s as [|c s IH]; simpl; intros n ds.
  - intros [= <-] Hn. simpl. destruct (Z.leb_spec n maxUint64); [done|lia].
  - destruct (digit c) as [d|] eqn:Ed; [|discriminate].
    destruct (digits_of s) as [ds' r'] eqn:E. intros [= <- ->] Hn.
    pose proof (digit_range _ _ Ed) as Hd.
    pose proof (digits_of_range _ _ _ E) as Hds.
    simpl.
    pose proof (accumulate_ge ds' (step n d) ltac:(unfold step; lia) Hds) as Hge.
    assert (Hstep : step n d = n * 10 + d) by reflexivity.
    set (total := fold_left step ds' (step n d)) in *.
    unfold cutoff10, maxUint64 in *.
    change (2 ^ 64 - 1) with 18446744073709551615 in *.
    change (18446744073709551615 / 10 + 1) with 1844674407370955162.
    change (2 ^ 64) with 18446744073709551616.
    destruct (Z.leb_spec 1844674407370955162 n).
    { destruct (Z.leb_spec total 18446744073709551615); [lia|done]. }
    destruct (Z.leb_spec (n * 10 + d) 18446744073709551615).
    + rewrite Z.mod_small by lia.
      destruct (Z.ltb_spec (n * 10 + d) (n * 10)); [lia|].
      destruct (Z.ltb_spec 18446744073709551615 (n * 10 + d)); [lia|].
      simpl. rewrite (IH (n * 10 + d) ds') by (done || lia). done.
    + replace ((n * 10 + d) mod 18446744073709551616)
        with (n * 10 + d - 18446744073709551616)
        by (apply Z.mod_unique with 1; lia).
      destruct (Z.ltb_spec (n * 10 + d - 18446744073709551616) (n * 10)); [|lia].
      simpl. destruct (Z.leb_spec total 18446744073709551615); [lia|done].
Qed.

Lemma ParseUint_loop_rest s : forall n ds r,
  digits_of s = (ds, r) -> r <> EmptyString ->
  ParseUint_loop s n = (0, Some ErrSyntax)
  \/ ParseUint_loop s n = (maxUint64, Some ErrRange).
Proof.
  induction s as [|c s IH]; simpl; intros n ds r.
  - intros [= <- <-] ?. done.
  - destruct (digit c) as [d|] eqn:Ed.
    + destruct (digits_of s) as [ds' r'] eqn:E. intros [= <- <-] Hr.
      destruct (_ <=? _); [eauto|]. destruct (_ || _); [eauto|].
      eapply IH; eauto.
    + intros _ _. eauto.
Qed.

Lemma digits_of_nonempty s d ds r :
  digits_of s = (d :: ds, r) -> s <> EmptyString.
Proof. destruct s; [discriminate | done]. Qed.

(** What [ParseInt] does after the sign, on the digits [ds] followed by
    [r]. *)
Lemma ParseUint_digits s d ds r :
  digits_of s = (d :: ds, r) ->
  ParseUint s =
    if String.eqb r EmptyString then
      if decimal_value (d :: ds) <=? maxUint64
      then (decimal_value (d :: ds), None) else (maxUint64, Some ErrRange)
    else ParseUint s.
Proof.
  intros H. destruct r; simpl; [|done].
  destruct s as [|c s]; [discriminate|].
  unfold ParseUint. rewrite (ParseUint_loop_digits _ 0 _ H); [done|].
  unfold maxUint64. lia.
Qed.

Lemma ParseInt_after_sign n neg s1 d ds s2 :
  parse_sign n = (neg, s1) -> digits_of s1 = (d :: ds, s2) ->
  ParseInt n = after_sign neg (ParseUint s1).
Proof.
  destruct n as [|c s']; simpl.
  - intros [= <- <-]. discriminate.
  - destruct (Ascii.eqb_spec c "-"%char) as [->|Hc].
    + intros [= <- <-] _. reflexivity.
    + intros [= <- <-]. simpl.
      destruct (Ascii.eqb_spec c "+"%char) as [->|_]; [discriminate|].
      reflexivity.
Qed.

Lemma decimal_value_nonneg ds :
  Forall (fun d => 0 <= d <= 9) ds -> 0 <= decimal_value ds.
Proof. intros H. apply (accumulate_ge ds 0); [lia | done]. Qed.

Lemma ParseInt_literal n l :
  parse_literal n = Some l ->
  match integer_literal n with
  | Some z =>
      if in_int64 z then ParseInt n = (z, None)
      else exists v e, ParseInt n = (v, Some e)
  | None => exists v e, ParseInt n = (v, Some e)
  end.
Proof.
  unfold integer_literal, parse_literal.
  destruct (parse_sign n) as [neg s1] eqn:Esign.
  destruct (digits_of s1) as [ip s2] eqn:Eint.
  destruct (parse_frac s2) as [fp s3] eqn:Efrac.
  destruct (int_part_ok ip && frac_part_ok fp) eqn:Eok; [|discriminate].
  destruct (parse_exp s3) as [e|] eqn:Eexp; [|discriminate].
  intros _.
  apply andb_true_iff in Eok as [Hip Hfp].
  destruct ip as [|d ds]; [discriminate|].
  rewrite (ParseInt_after_sign _ _ _ _ _ _ Esign Eint).
  pose proof (decimal_value_nonneg _ (digits_of_range _ _ _ Eint)) as Hpos.
  destruct s2 as [|c r].
  - (* an integer literal *)
    injection Efrac as <- <-. injection Eexp as <-.
    rewrite (ParseUint_digits _ _ _ _ Eint). simpl String.eqb. cbv iota.
    set (v := decimal_value (d :: ds)) in *.
    unfold in_int64, after_sign, maxUint64.
    change (2 ^ 64 - 1) with 18446744073709551615.
    change (2 ^ 63) with 9223372036854775808.
    destruct (Z.leb_spec v 18446744073709551615); destruct neg; simpl;
      repeat match goal with
      | |- context [?a <=? ?b] => destruct (Z.leb_spec a b); simpl
      | |- context [?a <? ?b] => destruct (Z.ltb_spec a b); simpl
      end; eauto; try lia.
  - (* a fraction or an exponent follows the digits *)
    assert (Hnot : match fp with
                   | Some _ => None
                   | None => match e with
                             | Some _ => None
                             | None => Some (if neg then - decimal_value (d :: ds)
                                             else decimal_value (d :: ds))
                             end
                   end = @None Z).
    { destruct fp; [done|]. destruct e; [done|].
      simpl in Efrac. destruct (Ascii.eqb c "."%char).
      - destruct (digits_of r); discriminate.
      - injection Efrac as <-. simpl in Eexp.
        destruct (_ || _); [|discriminate].
        repeat case_match; discriminate. }
    rewrite Hnot.
    assert (Hs1 : s1 <> EmptyString) by (eapply digits_of_nonempty; eauto).
    destruct s1 as [|c1 s1']; [done|]. unfold ParseUint.
    destruct (ParseUint_loop_rest (String c1 s1') 0 _ _ Eint) as [-> | ->];
      [done | | ].
    + simpl. eauto.
    + unfold after_sign, maxUint64. destruct neg; simpl; eauto.
Qed.

Example ParseFloat_tenth :
  ParseFloat "0.1" = (S754_finite false 7205759403792794 (-56), None).
Proof. vm_compute. reflexivity. Qed.

Example ParseFloat_tie_to_even :
  ParseFloat "9007199254740993" = (S754_finite false 4503599627370496 1, None).
Proof. vm_compute. reflexivity. Qed.

Example ParseFloat_largest :
  ParseFloat "1.7976931348623157e308"
  = (S754_finite false 9007199254740991 971, None).
Proof. vm_compute. reflexivity. Qed.

Example ParseFloat_too_large :
  ParseFloat "-1e999" = (S754_infinity true, Some ErrRange).
Proof. vm_compute. reflexivity. Qed.

Example ParseFloat_too_small : ParseFloat "1e-400" = (S754_zero false, None).
Proof. vm_compute. reflexivity. Qed.

Example ParseInt_smallest :
  ParseInt "-9223372036854775808" = (-9223372036854775808, None).
Proof. vm_compute. reflexivity. Qed.

Example ParseInt_too_large :
  ParseInt "9223372036854775808" = (9223372036854775807, Some ErrRange).
Proof. vm_compute. reflexivity. Qed.

Example ParseInt_fraction : ParseInt "1.0" = (0, Some ErrSyntax).
Proof. vm_compute. reflexivity. Qed.

(** ** Elements *)

Lemma len_nonneg {A} (s : slice A) : 0 <= len s.
Proof. unfold len. lia. Qed.

Lemma slice_at_Some {A} (s : slice A) (i : Z) :
  0 <= i < len s -> exists x, slice_at s i = Some x.
Proof.
  unfold slice_at, len. intros [Hlo Hhi].
  destruct (Z.ltb_spec i 0); [lia|].
  apply lookup_lt_is_Some_2. lia.
Qed.

Lemma Int64_decoded n :
  decoded (VNumber n) ->
  match integer_literal n with
  | Some z =>
      if in_int64 z then Int64 n = (z, None)
      else exists v e, Int64 n = (v, Some e)
  | None => exists v e, Int64 n = (v, Some e)
  end.
Proof.
  inversion 1 as [| |? [l Hl]| | |]; subst. eapply ParseInt_literal; eauto.
Qed.

Lemma Dropdown_submit_as :
  Dropdown.submit = submit_as "value %v is not allowed for dropdown element".
Proof. reflexivity. Qed.

Lemma StepSlider_submit_as :
  StepSlider.submit = submit_as "value %v is not allowed for step slider element".
Proof. reflexivity. Qed.

(** A dropdown with a callback, on a decoded value: an error unless the
    value is an integer that indexes [Options]. *)
Lemma submit_as_decoded element d value f :
  Dropdown.Submit d = Some f -> decoded value ->
  match integer_value value with
  | Some z =>
      if in_int64 z && (0 <=? z) && (z <? len (Dropdown.Options d)) then
        exists option, slice_at (Dropdown.Options d) z = Some option
          /\ submit_as element d value = ([CallDropdown f z option], Return None)
      else exists format, submit_as element d value = fail format
  | None => exists format, submit_as element d value = fail format
  end.
Proof.
  intros Hf Hdec. unfold submit_as. rewrite Hf.
  destruct value as [| b | n | s | l | m]; simpl; try (eexists; reflexivity).
  pose proof (Int64_decoded n Hdec) as Hint.
  destruct (integer_literal n) as [z|].
  - destruct (in_int64 z) eqn:Hrange; simpl.
    + rewrite Hint. simpl.
      destruct (Z.leb_spec 0 z), (Z.ltb_spec z (len (Dropdown.Options d)));
        simpl.
      * destruct (Z.ltb_spec z 0); [lia|].
        destruct (Z.leb_spec (len (Dropdown.Options d)) z); [lia|]. simpl.
        destruct (slice_at_Some (Dropdown.Options d) z ltac:(lia)) as [o Ho].
        rewrite Ho. eauto.
      * destruct (Z.ltb_spec z 0); [lia|].
        destruct (Z.leb_spec (len (Dropdown.Options d)) z); [|lia]. simpl. eauto.
      * destruct (Z.ltb_spec z 0); [|lia]. simpl. eauto.
      * destruct (Z.ltb_spec z 0); [|lia]. simpl. eauto.
    + destruct Hint as (v & e & ->). simpl. eauto.
  - destruct Hint as (v & e & ->). simpl. eauto.
Qed.

Lemma in_int64_index {A} (s : slice A) z :
  len s <= maxInt -> 0 <= z < len s -> in_int64 z = true.
Proof.
  unfold in_int64, maxInt. intros.
  apply andb_true_iff. split; [apply Z.leb_le | apply Z.leb_le]; lia.
Qed.

Lemma returns_error_fail format : returns_error (snd (fail format)).
Proof. eexists. reflexivity. Qed.

Lemma not_returns_error_nil : ~ returns_error (Return None).
Proof. intros [e He]. discriminate. Qed.

Lemma dispatches_by_index_as element d value f :
  Dropdown.Submit d = Some f -> decoded value ->
  len (Dropdown.Options d) <= maxInt ->
  dispatches_by_index (submit_as element) d value f.
Proof.
  intros Hf Hdec Hlen.
  pose proof (submit_as_decoded element d value f Hf Hdec) as H.
  unfold dispatches_by_index.
  destruct (integer_value value) as [z|] eqn:Ez.
  - destruct (in_int64 z && (0 <=? z) && (z <? len (Dropdown.Options d))) eqn:Ein.
    + destruct H as (o & Ho & ->).
      apply andb_true_iff in Ein as [[_ ?%Z.leb_le]%andb_true_iff ?%Z.ltb_lt].
      split; [split|].
      * intros []%not_returns_error_nil.
      * intros [|(z' & [= <-] & ?)]; [done|lia].
      * intros _. eauto.
    + destruct H as (fmt & ->). split; [split|].
      * intros _. right. exists z. split; [done|].
        destruct (Z.ltb_spec z 0); [lia|].
        destruct (Z.leb_spec (len (Dropdown.Options d)) z); [lia|].
        rewrite (in_int64_index (Dropdown.Options d) z) in Ein by lia.
        simpl in Ein. apply andb_false_iff in Ein. lia.
      * intros _. apply returns_error_fail.
      * intros []. apply returns_error_fail.
  - destruct H as (fmt & ->). split; [split|].
    + auto.
    + intros _. apply returns_error_fail.
    + intros []. apply returns_error_fail.
Qed.

(** ** Claims on the elements *)

(** C2. A dropdown and a step slider with a callback, on a decoded value and
    with [Options] of a length a Go slice can have: [submit] returns an error
    if and only if the value is not a JSON integer or the integer is below 0
    or at least [len(Options)]; otherwise it calls the callback once, with
    the index and the option at that index, and returns nil. *)
Theorem Dropdown_submit_dispatches (d : Dropdown.t) (value : any) (f : func)
    (Hsubmit : Dropdown.Submit d = Some f)
    (Hdecoded : decoded value)
    (Hlen : len (Dropdown.Options d) <= maxInt) :
  dispatches_by_index Dropdown.submit d value f
  /\ dispatches_by_index StepSlider.submit d value f.
Proof.
  rewrite Dropdown_submit_as, StepSlider_submit_as.
  split; apply dispatches_by_index_as; assumption.
Qed.

Lemma decoded_literal n l : parse_literal n = Some l -> decoded (VNumber n).
Proof. intros H. constructor. rewrite H. eexists. reflexivity. Qed.

Lemma Dropdown_submit_dispatches_witness :
  dispatches_by_index Dropdown.submit colours (VNumber "2") 7%nat
  /\ dispatches_by_index StepSlider.submit colours (VNumber "2") 7%nat.
Proof.
  apply (Dropdown_submit_dispatches colours (VNumber "2") 7%nat).
  - reflexivity.
  - eapply decoded_literal. vm_compute. reflexivity.
  - vm_compute. discriminate.
Defined.

Example colours_blue :
  Dropdown.submit colours (VNumber "2") = ([CallDropdown 7%nat 2 "blue"], Return None).
Proof. vm_compute. reflexivity. Qed.

Example colours_three :
  Dropdown.submit colours (VNumber "3")
  = fail "dropdown value %v is out of range %v-%v".
Proof. vm_compute. reflexivity. Qed.

Example colours_fraction :
  Dropdown.submit colours (VNumber "1.0")
  = fail "value %v is not allowed for dropdown element".
Proof. vm_compute. reflexivity. Qed.

(** *** C1 *)

(** C1, as stated, fails: an input without a callback returns nil for a
    boolean, a value of the wrong type for it. *)
Lemma submit_without_callback_accepts :
  decoded (VBool true)
  /\ wrong_type (EInput silent_input) (VBool true) = true
  /\ ~ returns_error (snd (Element_submit (EInput silent_input) (VBool true))).
Proof.
  split; [constructor|]. split; [reflexivity|].
  intros [e He]. discriminate.
Qed.

(** An element without a callback, a label among them, accepts every
    value without a call. *)
Lemma Element_submit_nil_callback e value :
  Element_Submit e = None \/ Element_Submit e = Some None ->
  Element_submit e value = ([], Return None).
Proof.
  destruct e as [l | i | t | s | d | d]; cbn [Element_Submit Element_submit];
    intros [H | H]; try discriminate; try reflexivity; injection H as H.
  - unfold Input.submit. by rewrite H.
  - unfold Toggle.submit. by rewrite H.
  - unfold Slider.submit. by rewrite H.
  - unfold Dropdown.submit. by rewrite H.
  - unfold StepSlider.submit. by rewrite H.
Qed.

(** An element with a callback rejects a decoded value of the wrong type or
    out of range, without a call. *)
Lemma Element_submit_rejects (e : Element) (value : any) (f : func)
    (Hsubmit : Element_Submit e = Some (Some f))
    (Hdecoded : decoded value)
    (Hwrong : wrong_type e value || out_of_range e value = true) :
  exists err, Element_submit e value = ([], Return (Some err)).
Proof.
  destruct e as [l | i | t | s | d | d]; simpl in Hsubmit; [discriminate| | | | |];
    injection Hsubmit as Hf; simpl in Hwrong |- *.
  - unfold Input.submit. rewrite Hf.
    destruct value; simpl in *; try discriminate; eexists; reflexivity.
  - unfold Toggle.submit. rewrite Hf.
    destruct value; simpl in *; try discriminate; eexists; reflexivity.
  - unfold Slider.submit. rewrite Hf.
    destruct value as [| b | n | s0 | l | m]; simpl in *;
      try discriminate; try (eexists; reflexivity).
    unfold float64_value in Hwrong. simpl in Hwrong.
    destruct (Float64 n) as [val err]. simpl in *.
    destruct err; simpl; [eexists; reflexivity|].
    rewrite Hwrong. eexists; reflexivity.
  - rewrite Dropdown_submit_as.
    pose proof (submit_as_decoded "value %v is not allowed for dropdown element"
                  d value f Hf Hdecoded) as H.
    destruct (integer_value value) as [z|]; [|destruct H as [? ->]; eexists; reflexivity].
    simpl in Hwrong.
    destruct (in_int64 z && (0 <=? z) && (z <? len (Dropdown.Options d))) eqn:E;
      [|destruct H as [? ->]; eexists; reflexivity].
    apply andb_true_iff in E as [[_ ?%Z.leb_le]%andb_true_iff ?%Z.ltb_lt].
    apply orb_true_iff in Hwrong as [?%Z.ltb_lt | ?%Z.leb_le]; lia.
  - rewrite StepSlider_submit_as.
    pose proof (submit_as_decoded "value %v is not allowed for step slider element"
                  d value f Hf Hdecoded) as H.
    destruct (integer_value value) as [z|]; [|destruct H as [? ->]; eexists; reflexivity].
    simpl in Hwrong.
    destruct (in_int64 z && (0 <=? z) && (z <? len (Dropdown.Options d))) eqn:E;
      [|destruct H as [? ->]; eexists; reflexivity].
    apply andb_true_iff in E as [[_ ?%Z.leb_le]%andb_true_iff ?%Z.ltb_lt].
    apply orb_true_iff in Hwrong as [?%Z.ltb_lt | ?%Z.leb_le]; lia.
Qed.

(** C1, amended. Of an element and a value, according to the [Submit]
    callback of the element:
    - when it is not nil and the value is decoded: if the value has the wrong
      JSON type for the element, or is a number outside the range the element
      permits, [submit] returns an error, and the callback is not called;
    - when it is nil, and for a label, which has no callback: [submit]
      returns nil and calls nothing, whatever the value, decoded or not. *)
Theorem submit_rejects_wrong_value (e : Element) (value : any) :
  match Element_Submit e with
  | Some (Some f) =>
      decoded value ->
      wrong_type e value || out_of_range e value = true ->
      exists err, Element_submit e value = ([], Return (Some err))
  | Some None | None =>
      Element_submit e value = ([], Return None)
  end.
Proof.
  destruct (Element_Submit e) as [[f|]|] eqn:E.
  - intros Hdecoded Hwrong. by apply (Element_submit_rejects e value f).
  - apply Element_submit_nil_callback. by right.
  - apply Element_submit_nil_callback. by left.
Qed.

Lemma submit_rejects_wrong_value_witness :
  (exists err,
     Element_submit (EDropdown colours) (VNumber "3") = ([], Return (Some err)))
  /\ Element_submit (EInput silent_input) (VString "ab") = ([], Return None)
  /\ Element_submit (EInput silent_input) (VBool true) = ([], Return None).
Proof.
  split; [|split].
  - apply (submit_rejects_wrong_value (EDropdown colours) (VNumber "3")).
    + eapply decoded_literal. vm_compute. reflexivity.
    + vm_compute. reflexivity.
  - exact (submit_rejects_wrong_value (EInput silent_input) (VString "ab")).
  - exact (submit_rejects_wrong_value (EInput silent_input) (VBool true)).
Defined.

(** *** C3 *)

(** On a literal of the JSON grammar [Float64] fails exactly when the value
    rounds to an infinity. *)
Lemma Float64_decoded n :
  decoded (VNumber n) ->
  let '(val, err) := Float64 n in
  (is_Some err <-> exists sign, val = S754_infinity sign).
Proof.
  inversion 1 as [| |? [l Hl]| | |]; subst.
  unfold Float64, ParseFloat. rewrite Hl.
  destruct (literal_float l) as [sg | sg | | sg m e]; split;
    try (intros [? [=]]); try (intros [? [=]]); eauto.
Qed.

(** C3, as stated, fails: [1e999] is a JSON number whose float64 value, the
    positive infinity that [Float64] returns with its range error, is
    neither below [Min] nor above a [Max] of positive infinity; [submit]
    returns an error all the same. *)
Lemma Slider_rejects_number_beyond_float64 :
  ~ (returns_error (snd (Slider.submit wide_slider (VNumber "1e999"))) <->
     is_number (VNumber "1e999") = false
     \/ SFltb (float64_value (VNumber "1e999")) (Slider.Min wide_slider) = true
     \/ SFltb (Slider.Max wide_slider) (float64_value (VNumber "1e999")) = true).
Proof.
  intros [Himp _].
  assert (Herr : returns_error (snd (Slider.submit wide_slider (VNumber "1e999")))).
  { vm_compute. eexists. reflexivity. }
  destruct (Himp Herr) as [H | [H | H]]; vm_compute in H; discriminate.
Qed.

(** C3, amended. A slider with a callback, on a decoded value: [submit]
    returns an error if and only if the value is not a JSON number, or the
    number is too large for a float64 (its float64 value is an infinity and
    [Float64] reports a range error), or its float64 value is strictly below
    [Min] or strictly above [Max]; otherwise it calls the callback once with
    that float64 and returns nil. [StepSize] plays no part. *)
Theorem Slider_submit_checks_range (s : Slider.t) (value : any) (f : func)
    (Hsubmit : Slider.Submit s = Some f)
    (Hdecoded : decoded value) :
  (returns_error (snd (Slider.submit s value)) <->
     is_number value = false
     \/ (exists sign, float64_value value = S754_infinity sign)
     \/ SFltb (float64_value value) (Slider.Min s) = true
     \/ SFltb (Slider.Max s) (float64_value value) = true)
  /\ (~ returns_error (snd (Slider.submit s value)) ->
      Slider.submit s value = ([CallSlider f (float64_value value)], Return None)).
Proof.
  unfold Slider.submit, float64_value. rewrite Hsubmit.
  destruct value as [| b | n | s0 | l | m]; simpl;
    try (split; [split; [auto | intros _; apply returns_error_fail]
                | intros []; apply returns_error_fail]).
  pose proof (Float64_decoded n Hdecoded) as Hinf.
  destruct (Float64 n) as [val err]. simpl.
  destruct err as [e|]; simpl.
  - split; [split|].
    + intros _. right. left. apply Hinf. eauto.
    + intros _. apply returns_error_fail.
    + intros []. apply returns_error_fail.
  - destruct (SFltb val (Slider.Min s)) eqn:Emin; simpl.
    { split; [split; [auto | intros _; apply returns_error_fail]
             | intros []; apply returns_error_fail]. }
    destruct (SFltb (Slider.Max s) val) eqn:Emax; simpl.
    { split; [split; [auto | intros _; apply returns_error_fail]
             | intros []; apply returns_error_fail]. }
    split; [split|].
    + intros []%not_returns_error_nil.
    + intros [H | [H | [H | H]]]; try discriminate.
      apply Hinf in H as [? [=]].
    + reflexivity.
Qed.

Lemma Slider_submit_checks_range_witness :
  (returns_error (snd (Slider.submit percent (VNumber "12.5"))) <->
     is_number (VNumber "12.5") = false
     \/ (exists sign, float64_value (VNumber "12.5") = S754_infinity sign)
     \/ SFltb (float64_value (VNumber "12.5")) (Slider.Min percent) = true
     \/ SFltb (Slider.Max percent) (float64_value (VNumber "12.5")) = true)
  /\ (~ returns_error (snd (Slider.submit percent (VNumber "12.5"))) ->
      Slider.submit percent (VNumber "12.5")
      = ([CallSlider 3%nat (float64_value (VNumber "12.5"))], Return None)).
Proof.
  apply (Slider_submit_checks_range percent (VNumber "12.5") 3%nat).
  - reflexivity.
  - eapply decoded_literal. vm_compute. reflexivity.
Defined.

Example percent_half :
  Slider.submit percent (VNumber "12.5")
  = ([CallSlider 3%nat (S754_finite false 7036874417766400 (-49))], Return None).
Proof. vm_compute. reflexivity. Qed.

Example percent_over :
  Slider.submit percent (VNumber "100.5") = fail "slider value %v is out of range %v-%v".
Proof. vm_compute. reflexivity. Qed.

(** ** Strings

    The string that [json.Marshal] writes is valid UTF-8, and it is the
    string given when that one is valid UTF-8. *)

Lemma ValidString_RuneError s :
  utf8.ValidString (String.append utf8.RuneError s) = utf8.ValidString s.
Proof. reflexivity. Qed.

Lemma coerced_valid s : utf8.ValidString s = true -> coerced s = s.
Proof.
  remember (String.length s) as n eqn:Hn. revert s Hn.
  induction n as [n IH] using lt_wf_ind. intros s Hn.
  assert (Hrec : forall t, (String.length t < n)%nat ->
            utf8.ValidString t = true -> coerced t = t)
    by (intros t Ht; by apply (IH (String.length t))).
  clear IH. subst n.
  destruct s as [|c0 s1]; [done|]. cbn [utf8.ValidString coerced String.length] in *.
  destruct (byte_of c0 <? 128).
  { intros H. f_equal. apply Hrec; [lia | done]. }
  destruct (utf8.first (byte_of c0)) as [[size [lo hi]]|]; [|done].
  destruct s1 as [|c1 s2]; [done|]. cbn [String.length] in *.
  destruct (_ || _); [done|].
  destruct (size =? 2).
  { intros H. do 2 f_equal. apply Hrec; [lia | done]. }
  destruct s2 as [|c2 s3]; [done|]. cbn [String.length] in *.
  destruct (utf8.not_continuation c2); [done|].
  destruct (size =? 3).
  { intros H. do 3 f_equal. apply Hrec; [lia | done]. }
  destruct s3 as [|c3 s4]; [done|]. cbn [String.length] in *.
  destruct (utf8.not_continuation c3); [done|].
  intros H. do 4 f_equal. apply Hrec; [lia | done].
Qed.

Lemma ValidString_coerced s : utf8.ValidString (coerced s) = true.
Proof.
  remember (String.length s) as n eqn:Hn. revert s Hn.
  induction n as [n IH] using lt_wf_ind. intros s Hn.
  assert (Hrec : forall t, (String.length t < n)%nat ->
            utf8.ValidString (coerced t) = true)
    by (intros t Ht; by apply (IH (String.length t))).
  clear IH. subst n.
  destruct s as [|c0 s1]; [done|]. cbn [coerced String.length] in *.
  assert (Hinvalid : utf8.ValidString (String.append utf8.RuneError (coerced s1)) = true).
  { rewrite ValidString_RuneError. apply Hrec. lia. }
  destruct (byte_of c0 <? 128) eqn:E0.
  { cbn [utf8.ValidString]. rewrite E0. apply Hrec. lia. }
  destruct (utf8.first (byte_of c0)) as [[size [lo hi]]|] eqn:E1; [|done].
  destruct s1 as [|c1 s2]; [done|]. cbn [String.length] in *.
  destruct (_ || _) eqn:E2; [done|].
  destruct (size =? 2) eqn:E3.
  { cbn [utf8.ValidString]. rewrite E0, E1, E2, E3. apply Hrec. lia. }
  destruct s2 as [|c2 s3]; [done|]. cbn [String.length] in *.
  destruct (utf8.not_continuation c2) eqn:E4; [done|].
  destruct (size =? 3) eqn:E5.
  { cbn [utf8.ValidString]. rewrite E0, E1, E2, E3, E4, E5. apply Hrec. lia. }
  destruct s3 as [|c3 s4]; [done|]. cbn [String.length] in *.
  destruct (utf8.not_continuation c3) eqn:E6; [done|].
  cbn [utf8.ValidString]. rewrite E0, E1, E2, E3, E4, E5, E6. apply Hrec. lia.
Qed.

Example coerced_invalid_byte :
  coerced (String "255" "a") = String.append utf8.RuneError "a".
Proof. vm_compute. reflexivity. Qed.

(** ** Claims on the forms *)


(** C10. When the decoder yields a slice whose length differs from the
    number of elements, shorter or longer, [Custom.SubmitJSON] returns an
    error and calls no callback, neither of an element nor of the form. *)
Theorem Custom_SubmitJSON_length (Decode : string -> result (slice any))
    (form : Custom.t) (data : string) (inputData : slice any)
    (Hdecode : Decode data = Ok inputData)
    (Hlen : len inputData < len (Custom.Elements form)
            \/ len (Custom.Elements form) < len inputData) :
  returns_error (snd (Custom.SubmitJSON Decode form (Some data)))
  /\ fst (Custom.SubmitJSON Decode form (Some data)) = [].
Proof.
  unfold Custom.SubmitJSON. rewrite Hdecode.
  destruct (Z.eqb_spec (len (Custom.Elements form)) (len inputData)) as [E|_];
    [lia|].
  simpl. split; [apply returns_error_fail | reflexivity].
Qed.

Lemma Custom_SubmitJSON_length_witness :
  returns_error (snd (Custom.SubmitJSON (table_decoder answers) survey (Some "[true,2,3]")))
  /\ fst (Custom.SubmitJSON (table_decoder answers) survey (Some "[true,2,3]")) = [].
Proof.
  apply (Custom_SubmitJSON_length (table_decoder answers) survey "[true,2,3]"
           (Some [VBool true; VNumber "2"; VNumber "3"])).
  - vm_compute. reflexivity.
  - right. vm_compute. reflexivity.
Defined.

Example survey_too_short :
  Custom.SubmitJSON (table_decoder answers) survey (Some "[true]")
  = fail "form JSON data array does not have enough values".
Proof. vm_compute. reflexivity. Qed.

Example survey_answered :
  Custom.SubmitJSON (table_decoder answers) survey (Some "[true,2]")
  = ([CallToggle 1%nat true; CallDropdown 7%nat 2 "blue"; CallForm 9%nat false None],
     Return None).
Proof. vm_compute. reflexivity. Qed.

Example survey_rejected :
  Custom.SubmitJSON (table_decoder answers) survey (Some "[1,2]")
  = ([], Return (Some (Wrapf "error parsing form response value: %w"
                         (Errorf "value %v is not allowed for toggle element")))).
Proof. vm_compute. reflexivity. Qed.

(** *** C7 *)




Example confirm_yes :
  Modal.SubmitJSON confirm (Some "true")
  = ([CallButton 4%nat None; CallForm 6%nat false None], Return None).
Proof. vm_compute. reflexivity. Qed.

Example confirm_number :
  Modal.SubmitJSON confirm (Some "1")
  = ([], Return (Some (Wrapf "error parsing JSON as bool: %w" (LibError "json")))).
Proof. vm_compute. reflexivity. Qed.

(** *** C6 *)

Lemma ParseUint_loop_nonneg s : forall n v,
  0 <= n -> ParseUint_loop s n = (v, None) -> 0 <= v.
Proof.
  induction s as [|c s IH]; simpl; intros n v Hn.
  - intros [= <-]. done.
  - destruct (digit c) as [d|]; [|discriminate].
    destruct (_ <=? _); [discriminate|]. destruct (_ || _); [discriminate|].
    apply IH. apply Z.mod_pos_bound. lia.
Qed.

(** A decoded button index is a natural number. *)
Lemma Unmarshal_uint_nonneg data index :
  Unmarshal_uint data 0 = (index, None) -> 0 <= index.
Proof.
  unfold Unmarshal_uint. destruct (String.eqb _ _); [intros [= <-]; done|].
  destruct (parse_literal _); [|discriminate].
  destruct (ParseUint (trim data)) as [n [e|]] eqn:E; [discriminate|].
  intros [= <-]. unfold ParseUint in E.
  destruct (trim data); [discriminate|].
  eapply ParseUint_loop_nonneg; [|exact E]. done.
Qed.

Lemma uint_len {A} (s : slice A) : len s <= maxInt -> uint (len s) = len s.
Proof.
  intros H. unfold uint. apply Z.mod_small.
  pose proof (len_nonneg s). unfold maxInt in H. lia.
Qed.

Lemma elem_of_call_if_set (f : option func) (c : func -> Call) (x : Call) :
  x ∈ call_if_set f c -> exists g, f = Some g /\ x = c g.
Proof.
  destruct f as [g|]; simpl; [|intros []%elem_of_nil].
  intros ->%list_elem_of_singleton. eauto.
Qed.

Lemma guards_index_clicked (bs : slice Button.t) (data : string) (tx : option Tx)
    (submit : option func) (format : string) :
  len bs <= maxInt ->
  guards_index bs data
    match Unmarshal_uint data 0 with
    | (_, Some err) =>
        ([], Return (Some (Wrapf "cannot parse button index as int: %w" err)))
    | (index, None) =>
        if uint (len bs) <=? index
        then fail format
        else
          match slice_at bs index with
          | None => ([], Panic)
          | Some button =>
              (call_if_set (Button.Submit button) (fun f => CallButton f tx)
               ++ call_if_set submit (fun f => CallForm f false tx),
               Return None)
          end
    end.
Proof.
  intros Hlen. rewrite (uint_len bs Hlen). unfold guards_index.
  destruct (Unmarshal_uint data 0) as [index [err|]] eqn:E; simpl.
  - split; [intros f tx' []%elem_of_nil|]. split; [intros ? [=]|done].
  - pose proof (Unmarshal_uint_nonneg _ _ E) as Hpos.
    destruct (Z.leb_spec (len bs) index) as [Hge|Hlt]; simpl.
    + split; [intros f tx' []%elem_of_nil|].
      split; [|done]. intros ? _ _. split; [apply returns_error_fail | done].
    + destruct (slice_at_Some bs index ltac:(lia)) as [button Hb]. rewrite Hb.
      simpl. split; [|split; [|done]].
      * intros f tx' [Hin|Hin]%elem_of_app.
        -- apply elem_of_call_if_set in Hin as (g & Hg & [= -> ->]).
           exists index, button. eauto with lia.
        -- apply elem_of_call_if_set in Hin as (g & Hg & [=]).
      * intros ? [= <-] ?. lia.
Qed.

(** C6. For a menu of either kind, with a button slice of a length a Go
    slice can have, and a response that is not nil: a button's [Submit] is
    called only when the decoded index is at least 0 and strictly below the
    number of buttons, and it is the callback of the button at that index;
    for every decoded index greater than or equal to the number of buttons
    [SubmitJSON] returns an error and calls nothing; and the indexing of the
    slice never panics. *)
Theorem Menu_SubmitJSON_guards_index (form : Menu.t) (form' : ButtonMenu.t)
    (data : string) (tx : Tx)
    (Hlen : len (Menu.buttons form) <= maxInt)
    (Hlen' : len (ButtonMenu.Buttons form') <= maxInt) :
  guards_index (Menu.buttons form) data (Menu.SubmitJSON form (Some data) tx)
  /\ guards_index (ButtonMenu.Buttons form') data
       (ButtonMenu.SubmitJSON form' (Some data)).
Proof.
  split.
  - apply (guards_index_clicked (Menu.buttons form) data (Some tx) (Menu.Submit form) _ Hlen).
  - apply (guards_index_clicked (ButtonMenu.Buttons form') data None
             (ButtonMenu.Submit form') _ Hlen').
Qed.

Lemma Menu_SubmitJSON_guards_index_witness :
  guards_index (Menu.buttons shop) "1" (Menu.SubmitJSON shop (Some "1") 8%nat)
  /\ guards_index (ButtonMenu.Buttons old_shop) "1"
       (ButtonMenu.SubmitJSON old_shop (Some "1")).
Proof.
  apply (Menu_SubmitJSON_guards_index shop old_shop "1" 8%nat).
  - vm_compute. discriminate.
  - vm_compute. discriminate.
Defined.

Example shop_second_button :
  Menu.SubmitJSON shop (Some "1") 8%nat
  = ([CallButton 5%nat (Some 8%nat); CallForm 2%nat false (Some 8%nat)], Return None).
Proof. vm_compute. reflexivity. Qed.

Example shop_no_third_button :
  Menu.SubmitJSON shop (Some "2") 8%nat
  = fail "button index points to invalid button: %v (only %v buttons present)".
Proof. vm_compute. reflexivity. Qed.

Example shop_null_is_first_button :
  Menu.SubmitJSON shop (Some "null") 8%nat
  = ([CallButton 4%nat (Some 8%nat); CallForm 2%nat false (Some 8%nat)], Return None).
Proof. vm_compute. reflexivity. Qed.

(** *** C8 *)

Lemma fold_collect es : forall acc,
  fold_left Menu.collect es acc =
    match omap button_of es with
    | [] => acc
    | bs => Some (elems acc ++ bs)
    end.
Proof.
  induction es as [|e es IH]; intros acc; [reflexivity|].
  cbn [fold_left]. rewrite IH. destruct e as [b|r].
  - change (omap button_of (Menu.MButton b :: es)) with (b :: omap button_of es).
    destruct (omap button_of es); [reflexivity|].
    unfold Menu.collect, append.
    change (elems (Some (elems acc ++ [b]))) with (elems acc ++ [b]).
    by rewrite <- app_assoc.
  - reflexivity.
Qed.

(** C8, as stated, fails: marshalling the menu of menu.go overwrites its
    field [buttons]. *)
Lemma Menu_MarshalJSON_fills_buttons :
  Menu.buttons fresh_shop = None
  /\ Menu.buttons (fst (Menu.MarshalJSON fresh_shop)) = Some [yes; no]
  /\ fst (Form_MarshalJSON (FMenu fresh_shop)) <> FMenu fresh_shop.
Proof.
  split; [reflexivity|]. split; [reflexivity|]. discriminate.
Qed.

(** C8, amended. [MarshalJSON] leaves a custom form and a modal as they
    are. It leaves the [Title], [Content], [Elements] and [Submit] of a menu
    unchanged and sets its [buttons] to the buttons found among [Elements], in
    order. In the menu with a [Buttons] field it leaves [Title], [Content] and
    [Submit] unchanged and keeps the buttons, a nil [Buttons] becoming the
    empty slice. *)
Theorem MarshalJSON_receiver :
  (forall form : Custom.t, fst (Custom.MarshalJSON form) = form)
  /\ (forall form : Modal.t, fst (Modal.MarshalJSON form) = form)
  /\ (forall form : Menu.t,
        let form' := fst (Menu.MarshalJSON form) in
        Menu.Title form' = Menu.Title form
        /\ Menu.Content form' = Menu.Content form
        /\ Menu.Elements form' = Menu.Elements form
        /\ Menu.Submit form' = Menu.Submit form
        /\ Menu.buttons form' = buttons_of (elems (Menu.Elements form)))
  /\ (forall form : ButtonMenu.t,
        let form' := fst (ButtonMenu.MarshalJSON form) in
        ButtonMenu.Title form' = ButtonMenu.Title form
        /\ ButtonMenu.Content form' = ButtonMenu.Content form
        /\ ButtonMenu.Submit form' = ButtonMenu.Submit form
        /\ ButtonMenu.Buttons form' = Some (elems (ButtonMenu.Buttons form))).
Proof.
  split; [|split; [|split]].
  - intros form. unfold Custom.MarshalJSON. by destruct (_ =? _).
  - reflexivity.
  - intros form. simpl. repeat split. apply fold_collect.
  - intros form. unfold ButtonMenu.MarshalJSON.
    destruct form as [ti co [bs|] su]; simpl; repeat split.
Qed.

(** *** C4 *)

Lemma sequence_fmap {A} (f : A -> result JSON) (ok : A -> bool) (l : list A) :
  (forall x, if ok x then exists j, f x = Ok j else exists e, f x = Err e) ->
  if forallb ok l then exists js, sequence (f <$> l) = Ok js
  else exists e, sequence (f <$> l) = Err e.
Proof.
  intros Hok. induction l as [|x l IH]; [simpl; eauto|].
  rewrite fmap_cons. cbn [sequence forallb].
  specialize (Hok x). destruct (ok x); cbn [andb].
  - destruct Hok as [j ->]. destruct (forallb ok l).
    + destruct IH as [js ->]. eauto.
    + destruct IH as [e ->]. eauto.
  - destruct Hok as [e ->]. eauto.
Qed.

Lemma marshal_slice_cases {A} (f : A -> result JSON) (ok : A -> bool) (s : slice A) :
  (forall x, if ok x then exists j, f x = Ok j else exists e, f x = Err e) ->
  if forallb ok (elems s) then exists j, marshal_slice f s = Ok j
  else exists e, marshal_slice f s = Err e.
Proof.
  intros Hok. destruct s as [l|]; simpl; [|eauto].
  pose proof (sequence_fmap f ok l Hok) as H.
  destruct (forallb ok l); destruct H as [? ->]; eauto.
Qed.

Lemma marshal_float_cases f :
  if writable f then marshal_float f = Ok (JFloat f)
  else exists e, marshal_float f = Err e.
Proof. destruct f; simpl; eauto. Qed.

Ltac evaluate := vm_compute; reflexivity.

(** The strings of a document that are not literals are left as they are
    while the document is evaluated. *)
Ltac hide_strings :=
  unfold Label.MarshalJSON, Input.MarshalJSON, Toggle.MarshalJSON,
    Slider.MarshalJSON, Dropdown.MarshalJSON, StepSlider.MarshalJSON,
    marshal_string;
  repeat match goal with
  | |- context [marshal_strings ?s] => generalize (marshal_strings s); intro
  | |- context [coerced ?s] =>
      lazymatch s with
      | String _ _ => fail
      | EmptyString => fail
      | _ => generalize (coerced s); intro
      end
  end.

Lemma Button_MarshalJSON_Ok b : exists j, Button.MarshalJSON b = Ok j.
Proof.
  unfold Button.MarshalJSON. destruct (negb _); [|hide_strings; eexists; evaluate].
  destruct (_ || _); hide_strings; eexists; evaluate.
Qed.

Lemma Element_MarshalJSON_cases e :
  if Element_writable e then exists j, Element_MarshalJSON e = Ok j
  else exists err, Element_MarshalJSON e = Err err.
Proof.
  destruct e as [l | i | t | s | d | d];
    cbn [Element_MarshalJSON Element_writable]; hide_strings;
    try (eexists; evaluate).
  pose proof (marshal_float_cases (Slider.Min s)) as Hmin.
  pose proof (marshal_float_cases (Slider.Max s)) as Hmax.
  pose proof (marshal_float_cases (Slider.StepSize s)) as Hstep.
  pose proof (marshal_float_cases (Slider.Default s)) as Hdef.
  destruct (writable (Slider.Min s)); [rewrite Hmin | destruct Hmin as [? ->]];
  (destruct (writable (Slider.Max s)); [rewrite Hmax | destruct Hmax as [? ->]]);
  (destruct (writable (Slider.StepSize s)); [rewrite Hstep | destruct Hstep as [? ->]]);
  (destruct (writable (Slider.Default s)); [rewrite Hdef | destruct Hdef as [? ->]]);
  cbn [andb]; eexists; evaluate.
Qed.

Lemma MenuElement_MarshalJSON_cases e :
  if MenuElement_writable e then exists j, Menu.MenuElement_MarshalJSON e = Ok j
  else exists err, Menu.MenuElement_MarshalJSON e = Err err.
Proof.
  destruct e as [b | [j | err]]; simpl; eauto. apply Button_MarshalJSON_Ok.
Qed.

(** C4, as stated, fails: a custom form without elements does not marshal. *)
Lemma Custom_MarshalJSON_needs_element :
  snd (Form_MarshalJSON (FCustom empty_form))
  = Err (Errorf "menu form requires at least one element")
  /\ ~ exists j, snd (Form_MarshalJSON (FCustom empty_form)) = Ok j.
Proof.
  split; [reflexivity|]. intros [j Hj]. discriminate.
Qed.

(** C4, amended. [MarshalJSON] of a modal and of a menu with a [Buttons]
    field always succeeds; that of a custom form succeeds when the form has
    at least one element and its sliders hold no NaN and no infinity; that of
    the menu of menu.go succeeds when its elements other than buttons marshal.
    Whenever it succeeds its result is a JSON object whose ["type"] is
    ["custom_form"], ["form"] or ["modal"] and whose set of keys depends on
    the kind of form only. In the remaining cases it returns an error. *)
Theorem MarshalJSON_shape (form : Form) :
  if marshallable form then
    exists m, snd (Form_MarshalJSON form) = Ok (JObject m)
              /\ m !! "type" = Some (JString (Form_type form))
              /\ dom m = Form_keys form
  else exists err, snd (Form_MarshalJSON form) = Err err.
Proof.
  destruct form as [c | m | m | m];
    cbn [marshallable Form_MarshalJSON Form_type Form_keys].
  - unfold Custom.MarshalJSON.
    destruct (len (Custom.Elements c) =? 0); cbn [negb andb snd]; [eauto|].
    pose proof (marshal_slice_cases Element_MarshalJSON Element_writable
                  (Custom.Elements c) Element_MarshalJSON_cases) as H.
    destruct (forallb _ _); destruct H as [x ->]; hide_strings.
    + eexists. split; [evaluate|]. split; evaluate.
    + eexists. evaluate.
  - unfold Menu.MarshalJSON.
    pose proof (marshal_slice_cases Menu.MenuElement_MarshalJSON MenuElement_writable
                  (Menu.Elements m) MenuElement_MarshalJSON_cases) as H.
    cbn [Menu.set_buttons Menu.Elements Menu.Title Menu.Content].
    destruct (forallb _ _); destruct H as [x ->]; hide_strings.
    + eexists. split; [evaluate|]. split; evaluate.
    + eexists. evaluate.
  - unfold ButtonMenu.MarshalJSON.
    pose proof (marshal_slice_cases Button.MarshalJSON (fun _ => true)) as H.
    destruct (ButtonMenu.Buttons m) as [bs|] eqn:E.
    + specialize (H (Some bs) Button_MarshalJSON_Ok).
      rewrite E.
      replace (forallb (fun _ => true) (elems (Some bs))) with true in H
        by (symmetry; apply forallb_forall; done).
      destruct H as [j ->]. hide_strings.
      eexists. split; [evaluate|]. split; evaluate.
    + cbn [ButtonMenu.Title ButtonMenu.Content ButtonMenu.Buttons]. hide_strings.
      eexists. split; [evaluate|]. split; evaluate.
  - unfold Modal.MarshalJSON. hide_strings.
    eexists. split; [evaluate|]. split; evaluate.
Qed.

(** *** C5 *)

Lemma submit_as_outcome element d value :
  (exists format, submit_as element d value = fail format)
  \/ submit_as element d value = nothing
  \/ exists f z option, submit_as element d value
                        = ([CallDropdown f z option], Return None).
Proof.
  unfold submit_as. destruct (Dropdown.Submit d) as [f|]; [|auto].
  destruct (as_Number value) as [number ok].
  destruct (Int64 number) as [val err].
  destruct (negb ok || bool_decide (is_Some err)); [eauto|].
  destruct (Z.ltb_spec val 0); simpl; [eauto|].
  destruct (Z.leb_spec (len (Dropdown.Options d)) val); simpl; [eauto|].
  destruct (slice_at_Some (Dropdown.Options d) val ltac:(lia)) as [o ->].
  eauto 10.
Qed.

(** What the [submit] of an element can do: fail without a call, accept
    without a call, or accept with one call of its callback. *)
Lemma Element_submit_outcome e value :
  (exists err, Element_submit e value = ([], Return (Some err)))
  \/ Element_submit e value = nothing
  \/ exists c, is_element_call c = true
               /\ Element_submit e value = ([c], Return None).
Proof.
  destruct e as [l | i | t | s | d | d]; simpl.
  - auto.
  - unfold Input.submit. destruct (Input.Submit i); [|auto].
    destruct (as_string value) as [text ok]. destruct (negb ok); [eauto|].
    destruct (negb _); [eauto|]. right; right. eexists. split; [|reflexivity]. done.
  - unfold Toggle.submit. destruct (Toggle.Submit t); [|auto].
    destruct (as_bool value) as [b ok]. destruct (negb ok); [eauto|].
    right; right. eexists. split; [|reflexivity]. done.
  - unfold Slider.submit. destruct (Slider.Submit s); [|auto].
    destruct (as_Number value) as [n ok]. destruct (Float64 n) as [val err].
    destruct (_ || _); [eauto|]. destruct (_ || _); [eauto|].
    right; right. eexists. split; [|reflexivity]. done.
  - rewrite Dropdown_submit_as.
    destruct (submit_as_outcome "value %v is not allowed for dropdown element" d value)
      as [[? H] | [H | (f & z & o & H)]];
      rewrite H; eauto.
    right; right. eexists. split; [|reflexivity]. done.
  - rewrite StepSlider_submit_as.
    destruct (submit_as_outcome "value %v is not allowed for step slider element" d value)
      as [[? H] | [H | (f & z & o & H)]];
      rewrite H; eauto.
    right; right. eexists. split; [|reflexivity]. done.
Qed.

Lemma Element_submit_error e value err :
  snd (Element_submit e value) = Return (Some err) ->
  Element_submit e value = ([], Return (Some err)).
Proof.
  destruct (Element_submit_outcome e value) as [[? H] | [H | (c & _ & H)]];
    rewrite H; simpl; intros [=]. by subst.
Qed.

Lemma Element_submit_validates e value :
  validates e value ->
  Element_submit e value = (fst (Element_submit e value), Return None).
Proof.
  unfold validates. destruct (Element_submit e value) as [tr o]. simpl. by intros ->.
Qed.

Lemma Element_submit_element_calls e value :
  Forall (fun c => is_element_call c = true) (fst (Element_submit e value)).
Proof.
  destruct (Element_submit_outcome e value) as [[? H] | [H | (c & Hc & H)]];
    rewrite H; simpl; repeat constructor. done.
Qed.

Lemma element_calls_element es : forall vs,
  Forall (fun c => is_element_call c = true) (element_calls es vs).
Proof.
  induction es as [|e es IH]; intros [|v vs]; simpl; try constructor.
  apply Forall_app. split; [apply Element_submit_element_calls | apply IH].
Qed.

(** The loop of [SubmitJSON] reads the values in step with the elements. *)
Lemma submit_from_submit_all inputData es : forall i vs,
  0 <= i -> drop (Z.to_nat i) (elems inputData) = vs ->
  length es = length vs ->
  Custom.submit_from es i inputData = submit_all es vs.
Proof.
  induction es as [|e es IH]; intros i vs Hi Hdrop Hlen; [reflexivity|].
  destruct vs as [|v vs]; [discriminate|]. cbn [Custom.submit_from submit_all].
  assert (Hat : slice_at inputData i = Some v).
  { unfold slice_at. destruct (Z.ltb_spec i 0); [lia|].
    rewrite <- (Nat.add_0_r (Z.to_nat i)), <- lookup_drop, Hdrop. reflexivity. }
  rewrite Hat.
  rewrite (IH (i + 1) vs); [reflexivity | lia | | simpl in Hlen; lia].
  replace (Z.to_nat (i + 1)) with (S (Z.to_nat i)) by lia.
  rewrite <- Nat.add_1_r, <- drop_drop, Hdrop. reflexivity.
Qed.

Lemma submit_all_validated es : forall vs,
  Forall2 validates es vs ->
  submit_all es vs = (element_calls es vs, Return None).
Proof.
  induction es as [|e es IH]; intros vs H; inversion H as [|? v ? vs' Hv Hvs]; subst;
    [reflexivity|].
  cbn [submit_all element_calls].
  rewrite (Element_submit_validates e v Hv), (IH vs' Hvs). reflexivity.
Qed.

(** Once the elements before it have accepted their values, an element that
    rejects its value ends the loop: what follows it plays no part. *)
Lemma submit_all_first_error pre : forall vpre failing post vfail vpost err,
  Forall2 validates pre vpre ->
  snd (Element_submit failing vfail) = Return (Some err) ->
  submit_all (pre ++ failing :: post) (vpre ++ vfail :: vpost)
  = (element_calls pre vpre,
     Return (Some (Wrapf "error parsing form response value: %w" err))).
Proof.
  induction pre as [|e pre IH]; intros vpre failing post vfail vpost err H Herr;
    inversion H as [|? v ? vpre' Hv Hpre]; subst.
  - cbn [app submit_all element_calls].
    rewrite (Element_submit_error _ _ _ Herr). reflexivity.
  - cbn [app submit_all element_calls].
    rewrite (Element_submit_validates e v Hv).
    rewrite (IH vpre' failing post vfail vpost err Hpre Herr). reflexivity.
Qed.

(** Either every element accepts its value, or there is a first one that
    rejects it. *)
Lemma submit_all_cases es : forall vs,
  length es = length vs ->
  Forall2 validates es vs
  \/ exists pre failing post vpre vfail vpost err,
       es = pre ++ failing :: post /\ vs = vpre ++ vfail :: vpost
       /\ Forall2 validates pre vpre
       /\ snd (Element_submit failing vfail) = Return (Some err).
Proof.
  induction es as [|e es IH]; intros [|v vs] Hlen; try discriminate.
  - left. constructor.
  - destruct (Element_submit_outcome e v) as [[err H] | Hok].
    + right. exists [], e, es, [], v, vs, err.
      rewrite H. repeat split. constructor.
    + assert (Hv : validates e v).
      { unfold validates. destruct Hok as [-> | (c & _ & ->)]; reflexivity. }
      destruct (IH vs) as [Hall | (pre & f & post & vpre & vf & vpost & err & -> & -> & Hpre & Herr)];
        [simpl in Hlen; lia | left; by constructor |].
      right. exists (e :: pre), f, post, (v :: vpre), vf, vpost, err.
      repeat split; [by constructor | done].
Qed.

Lemma first_error_not_validated pre : forall vpre failing post vfail vpost err,
  Forall2 validates pre vpre ->
  snd (Element_submit failing vfail) = Return (Some err) ->
  ~ Forall2 validates (pre ++ failing :: post) (vpre ++ vfail :: vpost).
Proof.
  induction pre as [|e pre IH]; intros vpre failing post vfail vpost err H Herr Hall;
    inversion H; subst; simpl in Hall; inversion Hall; subst.
  - unfold validates in *. congruence.
  - eapply IH; eauto.
Qed.

Lemma no_form_call_among_elements es vs c :
  c ∈ element_calls es vs -> is_form_call c = false.
Proof.
  intros Hin. pose proof (element_calls_element es vs) as H.
  rewrite Forall_forall in H. specialize (H c Hin). by destruct c.
Qed.

(** C5. [Custom.SubmitJSON] on data decoded into as many values as the form
    has elements. If an element's [submit] returns an error, the elements
    before it having accepted their values, then [SubmitJSON] returns an
    error wrapping it, and the calls made are those of the elements before
    it: neither the [Submit] of the form nor anything of a later element is
    called. The [Submit] of the form is called, with [closed = false],
    exactly when every element accepted its value (and the callback is not
    nil); it is then the last call, after those of the elements, and
    [SubmitJSON] returns nil. *)
Theorem Custom_SubmitJSON_stops_at_error (Decode : string -> result (slice any))
    (form : Custom.t) (data : string) (inputData : slice any)
    (Hdecode : Decode data = Ok inputData)
    (Hlen : len (Custom.Elements form) = len inputData) :
  let r := Custom.SubmitJSON Decode form (Some data) in
  let es := elems (Custom.Elements form) in
  let vs := elems inputData in
  (forall pre failing post vpre vfail vpost err,
     es = pre ++ failing :: post -> vs = vpre ++ vfail :: vpost ->
     Forall2 validates pre vpre ->
     snd (Element_submit failing vfail) = Return (Some err) ->
     r = (element_calls pre vpre,
          Return (Some (Wrapf "error parsing form response value: %w" err))))
  /\ (returns_error (snd r) <-> ~ Forall2 validates es vs)
  /\ ((exists c, c ∈ fst r /\ is_form_call c = true) <->
        is_Some (Custom.Submit form) /\ Forall2 validates es vs)
  /\ (Forall2 validates es vs ->
      r = (element_calls es vs
           ++ call_if_set (Custom.Submit form) (fun f => CallForm f false None),
           Return None)).
Proof.
  cbv zeta. unfold Custom.SubmitJSON. rewrite Hdecode, Hlen, Z.eqb_refl.
  cbn [negb].
  assert (Hlength : length (elems (Custom.Elements form)) = length (elems inputData))
    by (unfold len in Hlen; lia).
  rewrite (submit_from_submit_all inputData _ 0 (elems inputData)) by done.
  set (es := elems (Custom.Elements form)) in *.
  set (vs := elems inputData) in *.
  assert (Hfirst : forall pre failing post vpre vfail vpost err,
     es = pre ++ failing :: post -> vs = vpre ++ vfail :: vpost ->
     Forall2 validates pre vpre ->
     snd (Element_submit failing vfail) = Return (Some err) ->
     submit_all es vs = (element_calls pre vpre,
          Return (Some (Wrapf "error parsing form response value: %w" err)))).
  { intros * -> -> Hpre Herr. by apply submit_all_first_error. }
  destruct (submit_all_cases es vs Hlength)
    as [Hall | (pre & f & post & vpre & vf & vpost & err & Hes & Hvs & Hpre & Herr)].
  - rewrite (submit_all_validated es vs Hall). cbn [fst snd].
    split; [|split; [|split]].
    + intros * -> -> Hpre Herr.
      destruct (first_error_not_validated _ _ _ _ _ _ _ Hpre Herr Hall).
    + split; [intros []%not_returns_error_nil | done].
    + split.
      * intros (c & [Hin|Hin]%elem_of_app & Hc).
        -- by rewrite (no_form_call_among_elements _ _ _ Hin) in Hc.
        -- apply elem_of_call_if_set in Hin as (g & -> & _). eauto.
      * intros [[g Hg] _]. rewrite Hg.
        exists (CallForm g false None). split; [|reflexivity].
        apply elem_of_app. right. by apply list_elem_of_singleton.
    + reflexivity.
  - pose proof (Hfirst _ _ _ _ _ _ _ Hes Hvs Hpre Herr) as Hrun.
    assert (Hnot : ~ Forall2 validates es vs).
    { rewrite Hes, Hvs. eapply first_error_not_validated; eauto. }
    rewrite Hrun. cbn [fst snd].
    split; [|split; [|split]].
    + intros * Hes' Hvs' Hpre' Herr'.
      rewrite <- Hrun. eapply Hfirst; eauto.
    + split; [done | intros _; eexists; reflexivity].
    + split.
      * intros (c & Hin & Hc).
        by rewrite (no_form_call_among_elements _ _ _ Hin) in Hc.
      * intros [_ Hall]. done.
    + done.
Qed.

Lemma Custom_SubmitJSON_stops_at_error_witness :
  let r := Custom.SubmitJSON (table_decoder answers) survey (Some "[1,2]") in
  let es := elems (Custom.Elements survey) in
  let vs := [VNumber "1"; VNumber "2"] in
  (forall pre failing post vpre vfail vpost err,
     es = pre ++ failing :: post -> vs = vpre ++ vfail :: vpost ->
     Forall2 validates pre vpre ->
     snd (Element_submit failing vfail) = Return (Some err) ->
     r = (element_calls pre vpre,
          Return (Some (Wrapf "error parsing form response value: %w" err))))
  /\ (returns_error (snd r) <-> ~ Forall2 validates es vs)
  /\ ((exists c, c ∈ fst r /\ is_form_call c = true) <->
        is_Some (Custom.Submit survey) /\ Forall2 validates es vs)
  /\ (Forall2 validates es vs ->
      r = (element_calls es vs
           ++ call_if_set (Custom.Submit survey) (fun f => CallForm f false None),
           Return None)).
Proof.
  apply (Custom_SubmitJSON_stops_at_error (table_decoder answers) survey "[1,2]"
           (Some [VNumber "1"; VNumber "2"])).
  - vm_compute. reflexivity.
  - vm_compute. reflexivity.
Defined.

(** * Further properties *)

(** ** Marshalling *)

(** X1. [Button.MarshalJSON] always succeeds with an object that holds
    under ["text"] the text coerced to valid UTF-8, each byte that is not part
    of a valid sequence replaced by U+FFFD. Without an image that is its only
    key; with one there is an ["image"] object whose ["data"] is the image,
    coerced in the same way, and whose ["type"] is ["url"] when the image
    starts with [http:] or [https:] and ["path"] otherwise. *)
Theorem Button_MarshalJSON_image b :
  exists m,
    Button.MarshalJSON b = Ok (JObject m)
    /\ m !! "text" = Some (JString (coerced (Button.Text b)))
    /\ if String.eqb (Button.Image b) ""
       then dom m = {["text"]}
       else exists im,
         dom m = {["text"; "image"]}
         /\ m !! "image" = Some (JObject im)
         /\ dom im = {["type"; "data"]}
         /\ im !! "type" = Some (JString (image_type (Button.Image b)))
         /\ im !! "data" = Some (JString (coerced (Button.Image b))).
Proof.
  unfold Button.MarshalJSON, image_type.
  destruct (String.eqb (Button.Image b) ""); cbn [negb].
  - hide_strings. eexists. split; [evaluate|]. split; evaluate.
  - destruct (_ || _); hide_strings.
    + eexists. split; [evaluate|]. split; [evaluate|].
      eexists. split; [evaluate|]. split; [evaluate|]. split; [evaluate|].
      split; evaluate.
    + eexists. split; [evaluate|]. split; [evaluate|].
      eexists. split; [evaluate|]. split; [evaluate|]. split; [evaluate|].
      split; evaluate.
Qed.

(** X2. [MarshalJSON] of an element succeeds unless a field of a slider is
    a NaN or an infinity. Its result is an object with the ["type"] of the
    kind of element, under ["text"] the element's text coerced to valid UTF-8
    (each byte that is not part of a valid sequence replaced by U+FFFD), and
    a set of keys that depends on the kind only. *)
Theorem Element_MarshalJSON_shape e :
  if Element_writable e then
    exists m,
      Element_MarshalJSON e = Ok (JObject m)
      /\ m !! "type" = Some (JString (Element_type e))
      /\ m !! "text" = Some (JString (coerced (Element_Text e)))
      /\ dom m = Element_keys e
  else exists err, Element_MarshalJSON e = Err err.
Proof.
  destruct e as [l | i | t | s | d | d];
    cbn [Element_MarshalJSON Element_writable Element_type Element_Text Element_keys];
    hide_strings;
    try (eexists; split; [evaluate|]; split; [evaluate|]; split; evaluate).
  pose proof (marshal_float_cases (Slider.Min s)) as Hmin.
  pose proof (marshal_float_cases (Slider.Max s)) as Hmax.
  pose proof (marshal_float_cases (Slider.StepSize s)) as Hstep.
  pose proof (marshal_float_cases (Slider.Default s)) as Hdef.
  destruct (writable (Slider.Min s)); [rewrite Hmin | destruct Hmin as [? ->]];
  (destruct (writable (Slider.Max s)); [rewrite Hmax | destruct Hmax as [? ->]]);
  (destruct (writable (Slider.StepSize s)); [rewrite Hstep | destruct Hstep as [? ->]]);
  (destruct (writable (Slider.Default s)); [rewrite Hdef | destruct Hdef as [? ->]]);
  cbn [andb];
  lazymatch goal with
  | |- exists m, _ = Ok _ /\ _ =>
      eexists; split; [evaluate|]; split; [evaluate|]; split; evaluate
  | |- exists err, _ = Err err => eexists; evaluate
  end.
Qed.

Example Label_invalid_text :
  Label.MarshalJSON {| Label.Text := String "255" "!" |}
  = Ok (JObject (<["type" := JString "label"]>
                (<["text" := JString (String.append utf8.RuneError "!")]> ∅))).
Proof. evaluate. Qed.

Lemma sequence_Forall2 {A} (f : A -> result JSON) (l : list A) : forall js,
  sequence (f <$> l) = Ok js -> Forall2 (fun x j => f x = Ok j) l js.
Proof.
  induction l as [|x l IH]; intros js.
  - intros [= <-]. constructor.
  - rewrite fmap_cons. cbn [sequence].
    destruct (f x) as [j|e] eqn:Ex; [|discriminate].
    destruct (sequence (f <$> l)) as [js'|e]; [|discriminate].
    intros [= <-]. constructor; [done | by apply IH].
Qed.

Lemma marshal_slice_array {A} (f : A -> result JSON) (l : list A) j :
  marshal_slice f (Some l) = Ok j ->
  exists js, j = JArray js /\ Forall2 (fun x j => f x = Ok j) l js.
Proof.
  unfold marshal_slice.
  destruct (sequence (f <$> l)) as [js|e] eqn:E; [|discriminate].
  intros [= <-]. exists js. split; [done | by apply sequence_Forall2].
Qed.

Lemma Custom_MarshalJSON_array (form : Custom.t) :
  if marshallable (FCustom form) then
    exists m js,
      snd (Custom.MarshalJSON form) = Ok (JObject m)
      /\ m !! "title" = Some (JString (coerced (Custom.Title form)))
      /\ m !! "content" = Some (JArray js)
      /\ Forall2 (fun e j => Element_MarshalJSON e = Ok j)
                 (elems (Custom.Elements form)) js
      /\ js <> []
  else exists err, snd (Custom.MarshalJSON form) = Err err.
Proof.
  cbn [marshallable]. unfold Custom.MarshalJSON.
  destruct (Z.eqb_spec (len (Custom.Elements form)) 0) as [|Hne];
    cbn [negb andb snd]; [eauto|].
  destruct (Custom.Elements form) as [l|] eqn:El; [|done].
  pose proof (marshal_slice_cases Element_MarshalJSON Element_writable
                (Some l) Element_MarshalJSON_cases) as H.
  change (elems (Some l)) with l in *.
  destruct (forallb Element_writable l); destruct H as [x Hx]; rewrite Hx;
    hide_strings.
  - destruct (marshal_slice_array _ _ _ Hx) as (js & -> & Hjs).
    eexists _, js.
    split; [evaluate|]. split; [evaluate|]. split; [evaluate|]. split; [done|].
    intros ->. inversion Hjs; subst. apply Hne. reflexivity.
  - eexists. evaluate.
Qed.

(** X3. When [Custom.MarshalJSON] succeeds, ["title"] is the title coerced
    to valid UTF-8 (each byte that is not part of a valid sequence replaced by
    U+FFFD) and ["content"] is an array, never empty, that holds the JSON of
    each element in the order of [Elements]. *)
Theorem Custom_MarshalJSON_content (form : Custom.t) :
  if marshallable (FCustom form) then
    exists m js,
      snd (Custom.MarshalJSON form) = Ok (JObject m)
      /\ m !! "title" = Some (JString (coerced (Custom.Title form)))
      /\ m !! "content" = Some (JArray js)
      /\ Forall2 (fun e j => Element_MarshalJSON e = Ok j)
                 (elems (Custom.Elements form)) js
      /\ js <> []
  else exists err, snd (Custom.MarshalJSON form) = Err err.
Proof. apply Custom_MarshalJSON_array. Qed.

(** X15. A dropdown and a step slider with the same fields marshal the
    options under ["options"] and under ["steps"] respectively, never under
    the other key: [null] for nil [Options], and otherwise the array, in
    order, of the options coerced to valid UTF-8 (each byte that is not part
    of a valid sequence replaced by U+FFFD). [DefaultIndex] is written under
    ["default"]. *)
Theorem Dropdown_StepSlider_options (d : Dropdown.t) :
  exists md ms,
    Dropdown.MarshalJSON d = Ok (JObject md)
    /\ StepSlider.MarshalJSON d = Ok (JObject ms)
    /\ match Dropdown.Options d with
       | None => md !! "options" = Some JNull /\ ms !! "steps" = Some JNull
       | Some options =>
           md !! "options" = Some (JArray ((fun o => JString (coerced o)) <$> options))
           /\ ms !! "steps" = Some (JArray ((fun o => JString (coerced o)) <$> options))
       end
    /\ md !! "default" = Some (JInt (Dropdown.DefaultIndex d))
    /\ ms !! "default" = Some (JInt (Dropdown.DefaultIndex d))
    /\ md !! "steps" = None /\ ms !! "options" = None.
Proof.
  unfold Dropdown.MarshalJSON, StepSlider.MarshalJSON, marshal_strings.
  change (fun o => JString (coerced o)) with marshal_string.
  destruct (Dropdown.Options d) as [options|];
    [generalize (marshal_string <$> options); intro|];
    hide_strings;
    (eexists _, _; split; [evaluate|]; split; [evaluate|];
     split; [split; evaluate|]; repeat split; evaluate).
Qed.

(** X4. In the menu with a [Buttons] field, [MarshalJSON] always writes
    ["buttons"] as an array, also for nil [Buttons], with the JSON of each
    button in order. *)
Theorem ButtonMenu_MarshalJSON_buttons (form : ButtonMenu.t) :
  exists m js,
    snd (ButtonMenu.MarshalJSON form) = Ok (JObject m)
    /\ m !! "buttons" = Some (JArray js)
    /\ Forall2 (fun b j => Button.MarshalJSON b = Ok j)
               (elems (ButtonMenu.Buttons form)) js.
Proof.
  unfold ButtonMenu.MarshalJSON.
  assert (H : forall bs, exists j, marshal_slice Button.MarshalJSON (Some bs) = Ok j).
  { intros bs.
    pose proof (marshal_slice_cases Button.MarshalJSON (fun _ => true) (Some bs)
                  Button_MarshalJSON_Ok) as H.
    replace (forallb (fun _ => true) (elems (Some bs))) with true in H
      by (symmetry; apply forallb_forall; done).
    exact H. }
  destruct (ButtonMenu.Buttons form) as [bs|] eqn:E.
  - rewrite E. destruct (H bs) as [j Hj]. rewrite Hj.
    destruct (marshal_slice_array _ _ _ Hj) as (js & -> & Hjs). hide_strings.
    eexists _, js. split; [evaluate|]. split; [evaluate|]. done.
  - cbn [ButtonMenu.Title ButtonMenu.Content ButtonMenu.Buttons]. hide_strings.
    eexists _, []. split; [evaluate|]. split; [evaluate|]. constructor.
Qed.

(** X5. When [Menu.MarshalJSON] succeeds, ["elements"] is [null] for nil
    [Elements] and otherwise an array with the JSON of each element in
    order. *)
Theorem Menu_MarshalJSON_elements (form : Menu.t) :
  if marshallable (FMenu form) then
    exists m,
      snd (Menu.MarshalJSON form) = Ok (JObject m)
      /\ match Menu.Elements form with
         | None => m !! "elements" = Some JNull
         | Some es =>
             exists js, m !! "elements" = Some (JArray js)
               /\ Forall2 (fun e j => Menu.MenuElement_MarshalJSON e = Ok j) es js
         end
  else exists err, snd (Menu.MarshalJSON form) = Err err.
Proof.
  cbn [marshallable]. unfold Menu.MarshalJSON.
  cbn [Menu.set_buttons Menu.Elements Menu.Title Menu.Content snd].
  pose proof (marshal_slice_cases Menu.MenuElement_MarshalJSON MenuElement_writable
                (Menu.Elements form) MenuElement_MarshalJSON_cases) as H.
  destruct (forallb _ _); destruct H as [x Hx]; rewrite Hx; hide_strings;
    [|eexists; evaluate].
  destruct (Menu.Elements form) as [es|].
  - destruct (marshal_slice_array _ _ _ Hx) as (js & -> & Hjs).
    eexists. split; [evaluate|]. exists js. split; [evaluate | done].
  - injection Hx as <-. eexists. split; evaluate.
Qed.

(** ** Marshalling, appending and submitting together *)

Lemma Menu_MarshalJSON_buttons (form : Menu.t) :
  fst (Menu.MarshalJSON form)
  = Menu.set_buttons form (buttons_of (elems (Menu.Elements form))).
Proof.
  unfold Menu.MarshalJSON. cbn [fst].
  destruct form as [ti co es su bs].
  cbn [Menu.set_buttons Menu.Title Menu.Content Menu.Elements Menu.Submit Menu.buttons].
  f_equal. apply fold_collect.
Qed.

Lemma Menu_MarshalJSON_result (form : Menu.t) (bs : slice Button.t) :
  snd (Menu.MarshalJSON (Menu.set_buttons form bs)) = snd (Menu.MarshalJSON form).
Proof. destruct form. reflexivity. Qed.

Lemma Custom_MarshalJSON_fst (form : Custom.t) : fst (Custom.MarshalJSON form) = form.
Proof. unfold Custom.MarshalJSON. by destruct (_ =? _). Qed.

(** X6. Marshalling a form a second time changes nothing: the form left
    behind and the result are those of the first time. In particular the
    [buttons] of a menu are rebuilt, not added to. *)
Theorem MarshalJSON_idempotent (form : Form) :
  Form_MarshalJSON (fst (Form_MarshalJSON form)) = Form_MarshalJSON form.
Proof.
  destruct form as [c | m | m | m]; cbn [Form_MarshalJSON].
  - pose proof (Custom_MarshalJSON_fst c) as H.
    destruct (Custom.MarshalJSON c) as [c' r] eqn:E. cbn [fst] in *. subst c'.
    cbn [Form_MarshalJSON]. by rewrite E.
  - pose proof (Menu_MarshalJSON_buttons m) as H.
    destruct (Menu.MarshalJSON m) as [m' r] eqn:E. cbn [fst] in *.
    cbn [Form_MarshalJSON].
    pose proof (Menu_MarshalJSON_buttons m') as H'.
    destruct (Menu.MarshalJSON m') as [m'' r'] eqn:E'. cbn [fst] in *.
    assert (Hr : r' = r).
    { change r' with (snd (m'', r')). rewrite <- E', H, Menu_MarshalJSON_result, E.
      reflexivity. }
    subst. by destruct m.
  - unfold ButtonMenu.MarshalJSON.
    destruct m as [ti co [bs|] su]; reflexivity.
  - reflexivity.
Qed.

Lemma elems_buttons_of es : elems (buttons_of es) = omap button_of es.
Proof. unfold buttons_of. by destruct (omap button_of es). Qed.


(** What a menu with the buttons [bs] does with a response that is not
    nil. *)
Lemma clicked_cases (bs : slice Button.t) (data : string) (tx : option Tx)
    (submit : option func) (format : string) :
  len bs <= maxInt ->
  let r :=
    match Unmarshal_uint data 0 with
    | (_, Some err) =>
        ([], Return (Some (Wrapf "cannot parse button index as int: %w" err)))
    | (index, None) =>
        if uint (len bs) <=? index
        then fail format
        else
          match slice_at bs index with
          | None => ([], Panic)
          | Some button =>
              (call_if_set (Button.Submit button) (fun f => CallButton f tx)
               ++ call_if_set submit (fun f => CallForm f false tx),
               Return None)
          end
    end in
  match Unmarshal_uint data 0 with
  | (index, None) =>
      match elems bs !! Z.to_nat index with
      | Some button =>
          r = (call_if_set (Button.Submit button) (fun f => CallButton f tx)
               ++ call_if_set submit (fun f => CallForm f false tx),
               Return None)
      | None => returns_error (snd r) /\ fst r = []
      end
  | (_, Some _) => returns_error (snd r) /\ fst r = []
  end.
Proof.
  intros Hlen. cbv zeta. rewrite (uint_len bs Hlen).
  destruct (Unmarshal_uint data 0) as [index [err|]] eqn:E.
  - split; [eexists; reflexivity | reflexivity].
  - pose proof (Unmarshal_uint_nonneg _ _ E) as Hpos.
    unfold slice_at. destruct (Z.ltb_spec index 0); [lia|].
    destruct (Z.leb_spec (len bs) index) as [Hge|Hlt].
    + rewrite lookup_ge_None_2 by (unfold len in Hge; lia).
      split; [apply returns_error_fail | reflexivity].
    + destruct (lookup_lt_is_Some_2 (elems bs) (Z.to_nat index)) as [b Hb];
        [unfold len in Hlt; lia|].
      rewrite Hb. reflexivity.
Qed.



(** X8. [Menu.Element] puts the element last. It leaves [SubmitJSON] as it
    was, since [buttons] is only rebuilt by [MarshalJSON]; marshalling
    afterwards gives the buttons of before followed by the new element when
    it is a button. *)
Theorem Menu_Element_appends (form : Menu.t) (e : Menu.MenuElement) :
  elems (Menu.Elements (Menu.Element form e)) = elems (Menu.Elements form) ++ [e]
  /\ (forall data tx,
        Menu.SubmitJSON (Menu.Element form e) data tx = Menu.SubmitJSON form data tx)
  /\ elems (Menu.buttons (fst (Menu.MarshalJSON (Menu.Element form e))))
     = elems (Menu.buttons (fst (Menu.MarshalJSON form)))
       ++ match e with Menu.MButton b => [b] | Menu.MOther _ => [] end.
Proof.
  split; [reflexivity|]. split; [reflexivity|].
  rewrite !Menu_MarshalJSON_buttons.
  destruct form as [ti co es su bs].
  cbn [Menu.set_buttons Menu.Element Menu.buttons Menu.Elements Menu.Title
       Menu.Content Menu.Submit].
  rewrite !elems_buttons_of.
  change (elems (append es e)) with (elems es ++ [e]).
  rewrite omap_app. by destruct e.
Qed.



(** X10. [Custom.Element] puts the element last, and the form then has an
    element: [MarshalJSON] succeeds exactly when the elements, the new one
    included, can be written, with one entry more in ["content"]. *)
Theorem Custom_Element_marshals (form : Custom.t) (e : Element) :
  elems (Custom.Elements (Custom.Element form e)) = elems (Custom.Elements form) ++ [e]
  /\ if forallb Element_writable (elems (Custom.Elements form)) && Element_writable e
     then exists m js,
       snd (Custom.MarshalJSON (Custom.Element form e)) = Ok (JObject m)
       /\ m !! "content" = Some (JArray js)
       /\ length js = S (length (elems (Custom.Elements form)))
     else exists err, snd (Custom.MarshalJSON (Custom.Element form e)) = Err err.
Proof.
  split; [reflexivity|].
  pose proof (Custom_MarshalJSON_array (Custom.Element form e)) as H.
  cbn [marshallable] in H.
  change (elems (Custom.Elements (Custom.Element form e)))
    with (elems (Custom.Elements form) ++ [e]) in H.
  assert (Hlen : (len (Custom.Elements (Custom.Element form e)) =? 0) = false).
  { apply Z.eqb_neq. unfold len.
    change (elems (Custom.Elements (Custom.Element form e)))
      with (elems (Custom.Elements form) ++ [e]).
    rewrite length_app. simpl. lia. }
  rewrite Hlen, forallb_app in H. cbn [negb andb forallb] in H.
  rewrite andb_true_r in H.
  destruct (_ && _); [|exact H].
  destruct H as (m & js & Hm & _ & Hc & Hjs & _).
  exists m, js. split; [done|]. split; [done|].
  apply Forall2_length in Hjs. rewrite <- Hjs, length_app. simpl. lia.
Qed.

(** ** The order of the calls *)

Lemma call_if_set_not_form (f : option func) (c : func -> Call) :
  (forall g, is_form_call (c g) = false) ->
  Forall (fun x => is_form_call x = false) (call_if_set f c).
Proof. intros H. destruct f; simpl; repeat constructor. apply H. Qed.

Lemma element_calls_not_form es vs :
  Forall (fun c => is_form_call c = false) (element_calls es vs).
Proof.
  apply Forall_forall. intros c Hc. eapply no_form_call_among_elements; eauto.
Qed.

(** X11. In every [SubmitJSON] the [Submit] of the form is called at most
    once, after every other call, and only when nil is returned; its [closed]
    argument tells whether the data was nil. When an error is returned the
    form's [Submit] has not been called. The button slice of a menu has a
    length a Go slice can have. *)
Theorem SubmitJSON_form_call_last (Decode : string -> result (slice any))
    (form : Form) (data : option string) (tx : Tx)
    (Hfits : Form_fits form) :
  let r := Form_SubmitJSON Decode form data tx in
  exists tr,
    Forall (fun c => is_form_call c = false) tr
    /\ ((snd r = Return None
         /\ fst r = tr ++ call_if_set (Form_Submit form)
                            (fun f => CallForm f (is_nil data) (Form_tx form tx)))
        \/ (returns_error (snd r) /\ fst r = tr)).
Proof.
  cbv zeta.
  assert (Hmenu : forall bs tx' submit format d,
    len bs <= maxInt ->
    let r :=
      match Unmarshal_uint d 0 with
      | (_, Some err) =>
          ([], Return (Some (Wrapf "cannot parse button index as int: %w" err)))
      | (index, None) =>
          if uint (len bs) <=? index
          then fail format
          else
            match slice_at bs index with
            | None => ([], Panic)
            | Some button =>
                (call_if_set (Button.Submit button) (fun f => CallButton f tx')
                 ++ call_if_set submit (fun f => CallForm f false tx'),
                 Return None)
            end
      end in
    exists tr,
      Forall (fun c => is_form_call c = false) tr
      /\ ((snd r = Return None
           /\ fst r = tr ++ call_if_set submit (fun f => CallForm f false tx'))
          \/ (returns_error (snd r) /\ fst r = tr))).
  { intros bs tx' submit format d Hlen.
    pose proof (clicked_cases bs d tx' submit format Hlen) as H. cbv zeta in H |- *.
    destruct (Unmarshal_uint d 0) as [index [err|]].
    - exists []. split; [constructor | right; exact H].
    - destruct (elems bs !! Z.to_nat index) as [b|].
      + rewrite H. eexists. split; [|left; split; reflexivity].
        by apply call_if_set_not_form.
      + exists []. split; [constructor | right; exact H]. }
  destruct data as [data|].
  2:{ exists []. split; [constructor|]. left.
      destruct form; split; reflexivity. }
  destruct form as [c | m | m | m]; cbn [Form_SubmitJSON Form_Submit Form_tx is_nil].
  - unfold Custom.SubmitJSON.
    destruct (Decode data) as [inputData|err].
    2:{ exists []. split; [constructor|]. right. split; [eexists|]; reflexivity. }
    destruct (Z.eqb_spec (len (Custom.Elements c)) (len inputData)) as [Hlen|Hlen];
      cbn [negb].
    2:{ exists []. split; [constructor|]. right.
        split; [apply returns_error_fail | reflexivity]. }
    assert (Hlength : length (elems (Custom.Elements c)) = length (elems inputData))
      by (unfold len in Hlen; lia).
    rewrite (submit_from_submit_all inputData _ 0 (elems inputData)) by done.
    destruct (submit_all_cases _ _ Hlength)
      as [Hall | (pre & f & post & vpre & vf & vpost & err & Hes & Hvs & Hpre & Herr)].
    + rewrite (submit_all_validated _ _ Hall).
      eexists. split; [apply element_calls_not_form|]. left. split; reflexivity.
    + rewrite Hes, Hvs, (submit_all_first_error _ _ _ _ _ _ _ Hpre Herr).
      eexists. split; [apply element_calls_not_form|]. right.
      split; [eexists|]; reflexivity.
  - apply (Hmenu (Menu.buttons m) (Some tx) (Menu.Submit m) _ data Hfits).
  - apply (Hmenu (ButtonMenu.Buttons m) None (ButtonMenu.Submit m) _ data Hfits).
  - unfold Modal.SubmitJSON.
    destruct (Unmarshal_bool data false) as [value [err|]].
    + exists []. split; [constructor|]. right. split; [eexists|]; reflexivity.
    + eexists. split; [|left; split; reflexivity].
      by apply call_if_set_not_form.
Qed.

Lemma SubmitJSON_form_call_last_witness :
  let r := Form_SubmitJSON (table_decoder answers) (FMenu shop) (Some "1") 8%nat in
  exists tr,
    Forall (fun c => is_form_call c = false) tr
    /\ ((snd r = Return None
         /\ fst r = tr ++ call_if_set (Form_Submit (FMenu shop))
                            (fun f => CallForm f (is_nil (Some "1"))
                                        (Form_tx (FMenu shop) 8%nat)))
        \/ (returns_error (snd r) /\ fst r = tr)).
Proof.
  apply (SubmitJSON_form_call_last (table_decoder answers) (FMenu shop) (Some "1") 8%nat).
  vm_compute. discriminate.
Defined.

(** ** Floats *)

Lemma shr_1_nonneg mrs : 0 <= shr_m mrs -> 0 <= shr_m (shr_1 mrs).
Proof.
  destruct mrs as [m r s]. simpl.
  destruct m as [|[p|p|]|[p|p|]]; simpl; lia.
Qed.

Lemma iter_pos_shr_1_nonneg p : forall mrs,
  0 <= shr_m mrs -> 0 <= shr_m (SpecFloat.iter_pos shr_1 p mrs).
Proof.
  induction p as [p IH|p IH|]; intros mrs H; simpl.
  - apply IH, IH, shr_1_nonneg, H.
  - apply IH, IH, H.
  - apply shr_1_nonneg, H.
Qed.

Lemma shr_fexp_nonneg m e l :
  0 <= m -> 0 <= shr_m (fst (shr_fexp prec64 emax64 m e l)).
Proof.
  intros H. unfold shr_fexp, shr.
  assert (H0 : 0 <= shr_m (shr_record_of_loc m l)).
  { destruct l as [|[]]; exact H. }
  destruct (_ - e) as [|p|p]; simpl; [done | | done].
  by apply iter_pos_shr_1_nonneg.
Qed.

Lemma round_nearest_even_nonneg m l : 0 <= m -> 0 <= round_nearest_even m l.
Proof.
  intros H. unfold round_nearest_even.
  destruct l as [|[]]; try done; [destruct (Z.even m)|]; lia.
Qed.

Lemma binary_round_aux_not_nan sx mx ex lx :
  0 <= mx -> is_nan (binary_round_aux prec64 emax64 sx mx ex lx) = false.
Proof.
  intros H. unfold binary_round_aux.
  pose proof (shr_fexp_nonneg mx ex lx H) as H1.
  destruct (shr_fexp prec64 emax64 mx ex lx) as [mrs' e'].
  pose proof (shr_fexp_nonneg
                (round_nearest_even (shr_m mrs') (loc_of_shr_record mrs')) e' loc_Exact
                (round_nearest_even_nonneg _ _ H1)) as H2.
  destruct (shr_fexp prec64 emax64 _ e' loc_Exact) as [mrs'' e''].
  simpl in H2. destruct (shr_m mrs'') as [|p|p]; [done | | lia].
  by destruct (_ <=? _).
Qed.

Lemma round64_not_nan neg m e10 : is_nan (round64 neg m e10) = false.
Proof.
  unfold round64. destruct m as [|p|p]; [done | | done].
  destruct (0 <=? e10).
  - unfold binary_round. destruct (shl_align _ _ _) as [mz ez].
    by apply binary_round_aux_not_nan.
  - unfold SFdiv_core_binary.
    set (m' := match _ - _ with Z0 => _ | Zpos _ => _ | Zneg _ => _ end).
    assert (Hm' : 0 <= m').
    { subst m'. destruct (_ - _); [lia | | lia]. apply Z.shiftl_nonneg. lia. }
    pose proof (Z.pow_pos_nonneg 10 (- e10) ltac:(lia)) as Hpow.
    destruct (Z.leb_spec 0 (- e10)) as [He|He].
    + specialize (Hpow He).
      pose proof (Z_div_mod m' (10 ^ (- e10)) ltac:(lia)) as Hdiv.
      destruct (Z.div_eucl m' (10 ^ (- e10))) as [q r].
      apply binary_round_aux_not_nan. nia.
    + rewrite Z.pow_neg_r by lia.
      destruct m'; simpl; by apply binary_round_aux_not_nan.
Qed.

Lemma Float64_not_nan n : is_nan (fst (Float64 n)) = false.
Proof.
  unfold Float64, ParseFloat. destruct (parse_literal n) as [l|]; [|done].
  pose proof (round64_not_nan (lit_neg l)
                (decimal_value (lit_int l ++ default [] (lit_frac l)))
                (default 0 (lit_exp l) - Z.of_nat (length (default [] (lit_frac l)))))
    as H.
  fold (literal_float l) in H. by destruct (literal_float l).
Qed.

(** When [Float64] reports no error its result is a finite number. *)
Lemma Float64_finite n val :
  Float64 n = (val, None) -> is_finite val = true.
Proof.
  intros H. pose proof (Float64_not_nan n) as Hnan. rewrite H in Hnan.
  unfold Float64, ParseFloat in H.
  destruct (parse_literal n) as [l|]; [|discriminate].
  destruct (literal_float l); try discriminate; injection H as <-; done.
Qed.

(** The comparisons of two numbers that are not NaN: one is not below the
    other exactly when the other is at most it. *)
Lemma SFcompare_antisym a b :
  SFcompare b a = option_map CompOpp (SFcompare a b).
Proof.
  destruct a as [sa|sa| |sa ma ea], b as [sb|sb| |sb mb eb]; simpl;
    try reflexivity; try (by destruct sa); try (by destruct sb);
    try (by destruct sa, sb).
  assert (Hm : PosDef.Pos.compare_cont Eq mb ma
               = CompOpp (PosDef.Pos.compare_cont Eq ma mb)).
  { symmetry. exact (Pos.compare_cont_antisym ma mb Eq). }
  destruct sa, sb; try reflexivity; simpl; f_equal;
    rewrite (Z.compare_antisym eb ea), Hm;
    destruct (eb ?= ea); simpl; try reflexivity.
Qed.

Lemma SFltb_false_SFleb a b :
  is_nan a = false -> is_nan b = false -> SFltb a b = false -> SFleb b a = true.
Proof.
  intros Ha Hb. unfold SFltb, SFleb. rewrite (SFcompare_antisym a b).
  destruct (SFcompare a b) as [[]|] eqn:E; simpl; try done.
  destruct a, b; try discriminate; simpl in E;
    repeat match goal with
    | H : context [if ?s then _ else _] |- _ => destruct s
    | H : context [match ?s with true => _ | false => _ end] |- _ => destruct s
    end; discriminate.
Qed.

(** ** What the callbacks of the elements receive *)

(** X12. The callback of a slider is only called with the float64 value of
    a decoded number, a finite one, that is at least [Min] and at most [Max]
    (for a [Min] and a [Max] that are no NaN). *)
Theorem Slider_callback_in_range (s : Slider.t) (value : any) (f : func) (v : float64)
    (Hdecoded : decoded value)
    (Hcall : CallSlider f v ∈ fst (Slider.submit s value)) :
  Slider.Submit s = Some f
  /\ v = float64_value value
  /\ is_finite v = true
  /\ (is_nan (Slider.Min s) = false -> SFleb (Slider.Min s) v = true)
  /\ (is_nan (Slider.Max s) = false -> SFleb v (Slider.Max s) = true).
Proof.
  unfold Slider.submit, float64_value in *.
  destruct (Slider.Submit s) as [g|]; [|by apply elem_of_nil in Hcall].
  destruct value as [| b | n | s0 | l | m]; simpl in Hcall;
    try (by apply elem_of_nil in Hcall).
  cbn [as_Number fst].
  destruct (Float64 n) as [val [err|]] eqn:E; simpl in Hcall;
    [by apply elem_of_nil in Hcall|].
  destruct (SFltb val (Slider.Min s)) eqn:Emin; simpl in Hcall;
    [by apply elem_of_nil in Hcall|].
  destruct (SFltb (Slider.Max s) val) eqn:Emax; simpl in Hcall;
    [by apply elem_of_nil in Hcall|].
  apply list_elem_of_singleton in Hcall. injection Hcall as -> ->.
  pose proof (Float64_finite n val E) as Hfin.
  assert (Hnan : is_nan val = false) by (by destruct val).
  split; [done|]. split; [done|]. split; [done|]. split; intros H.
  - by apply SFltb_false_SFleb.
  - by apply SFltb_false_SFleb.
Qed.

Lemma Slider_callback_in_range_witness :
  Slider.Submit percent = Some 3%nat
  /\ S754_finite false 7036874417766400 (-49) = float64_value (VNumber "12.5")
  /\ is_finite (S754_finite false 7036874417766400 (-49)) = true
  /\ (is_nan (Slider.Min percent) = false ->
      SFleb (Slider.Min percent) (S754_finite false 7036874417766400 (-49)) = true)
  /\ (is_nan (Slider.Max percent) = false ->
      SFleb (S754_finite false 7036874417766400 (-49)) (Slider.Max percent) = true).
Proof.
  apply (Slider_callback_in_range percent (VNumber "12.5") 3%nat
           (S754_finite false 7036874417766400 (-49))).
  - eapply decoded_literal. vm_compute. reflexivity.
  - vm_compute. by apply list_elem_of_singleton.
Defined.

(** X13. An element with a callback accepts a decoded value of the right
    type and range (for a slider, a number that fits a float64): [submit]
    returns nil after exactly one call, of that callback. The options of a
    dropdown or step slider have a length a Go slice can have. *)
Theorem Element_submit_accepts (e : Element) (value : any) (f : func)
    (Hsubmit : Element_Submit e = Some (Some f))
    (Hdecoded : decoded value)
    (Hfits : Element_fits e)
    (Hright : wrong_type e value || out_of_range e value || too_large e value = false) :
  exists c,
    Element_submit e value = ([c], Return None)
    /\ is_element_call c = true
    /\ Call_func c = f.
Proof.
  apply orb_false_iff in Hright as [[Htype Hrange]%orb_false_iff Hlarge].
  destruct e as [l | i | t | s | d | d]; simpl in Hsubmit; [discriminate| | | | |];
    injection Hsubmit as Hf; cbn [Element_submit].
  - unfold Input.submit. rewrite Hf.
    destruct value as [| b | n | s0 | l | m]; try discriminate.
    inversion Hdecoded as [| | |? Hutf| |]; subst.
    simpl. rewrite Hutf. simpl. eauto.
  - unfold Toggle.submit. rewrite Hf.
    destruct value as [| b | n | s0 | l | m]; try discriminate.
    simpl. eauto.
  - unfold Slider.submit. rewrite Hf.
    destruct value as [| b | n | s0 | l | m]; try discriminate.
    cbn [wrong_type out_of_range too_large is_number negb andb] in *.
    unfold float64_value in *. cbn [as_Number fst] in *.
    pose proof (Float64_decoded n Hdecoded) as Hinf.
    destruct (Float64 n) as [val [err|]]; cbn [fst] in *.
    + destruct Hinf as [Hinf _]. destruct (Hinf ltac:(eauto)) as [sg ->]. discriminate.
    + simpl. rewrite Hrange. eauto.
  - rewrite Dropdown_submit_as.
    pose proof (submit_as_decoded "value %v is not allowed for dropdown element"
                  d value f Hf Hdecoded) as H.
    cbn [wrong_type out_of_range] in *.
    destruct (integer_value value) as [z|]; [|done].
    apply orb_false_iff in Hrange as [?%Z.ltb_ge ?%Z.leb_gt].
    rewrite (in_int64_index (Dropdown.Options d) z) in H by (done || lia).
    destruct (Z.leb_spec 0 z); [|lia].
    destruct (Z.ltb_spec z (len (Dropdown.Options d))); [|lia].
    destruct H as (o & _ & ->). eauto.
  - rewrite StepSlider_submit_as.
    pose proof (submit_as_decoded "value %v is not allowed for step slider element"
                  d value f Hf Hdecoded) as H.
    cbn [wrong_type out_of_range] in *.
    destruct (integer_value value) as [z|]; [|done].
    apply orb_false_iff in Hrange as [?%Z.ltb_ge ?%Z.leb_gt].
    rewrite (in_int64_index (Dropdown.Options d) z) in H by (done || lia).
    destruct (Z.leb_spec 0 z); [|lia].
    destruct (Z.ltb_spec z (len (Dropdown.Options d))); [|lia].
    destruct H as (o & _ & ->). eauto.
Qed.

Lemma Element_submit_accepts_witness :
  exists c,
    Element_submit (ESlider percent) (VNumber "12.5") = ([c], Return None)
    /\ is_element_call c = true
    /\ Call_func c = 3%nat.
Proof.
  apply (Element_submit_accepts (ESlider percent) (VNumber "12.5") 3%nat).
  - reflexivity.
  - eapply decoded_literal. vm_compute. reflexivity.
  - exact I.
  - vm_compute. reflexivity.
Defined.

(** An element that accepts a value calls its callback once when it has
    one, and nothing otherwise. *)
Lemma validated_calls e value :
  validates e value ->
  length (fst (Element_submit e value)) = if has_callback e then 1%nat else 0%nat.
Proof.
  unfold validates, has_callback.
  destruct e as [l | i | t | s | d | d]; cbn [Element_submit Element_Submit].
  - reflexivity.
  - unfold Input.submit. destruct (Input.Submit i); [|reflexivity].
    destruct (as_string value) as [text ok]. destruct (negb ok); [discriminate|].
    destruct (negb _); [discriminate | reflexivity].
  - unfold Toggle.submit. destruct (Toggle.Submit t); [|reflexivity].
    destruct (as_bool value) as [b ok]. destruct (negb ok); [discriminate | reflexivity].
  - unfold Slider.submit. destruct (Slider.Submit s); [|reflexivity].
    destruct (as_Number value) as [n ok]. destruct (Float64 n) as [val err].
    destruct (_ || _); [discriminate|]. destruct (_ || _); [discriminate | reflexivity].
  - rewrite Dropdown_submit_as.
    destruct (submit_as_outcome "value %v is not allowed for dropdown element" d value)
      as [[? H] | [H | (f & z & o & H)]]; rewrite H; [discriminate | | ].
    + unfold submit_as in H. destruct (Dropdown.Submit d); [|reflexivity].
      destruct (as_Number value) as [n ok]. destruct (Int64 n) as [val err].
      destruct (_ || _); [discriminate|]. destruct (_ || _); [discriminate|].
      destruct (slice_at _ _); discriminate.
    + unfold submit_as in H. destruct (Dropdown.Submit d); [reflexivity | discriminate].
  - rewrite StepSlider_submit_as.
    destruct (submit_as_outcome "value %v is not allowed for step slider element" d value)
      as [[? H] | [H | (f & z & o & H)]]; rewrite H; [discriminate | | ].
    + unfold submit_as in H. destruct (Dropdown.Submit d); [|reflexivity].
      destruct (as_Number value) as [n ok]. destruct (Int64 n) as [val err].
      destruct (_ || _); [discriminate|]. destruct (_ || _); [discriminate|].
      destruct (slice_at _ _); discriminate.
    + unfold submit_as in H. destruct (Dropdown.Submit d); [reflexivity | discriminate].
Qed.

Lemma element_calls_length es vs :
  Forall2 validates es vs ->
  length (element_calls es vs) = length (List.filter has_callback es).
Proof.
  induction 1 as [|e v es vs Hv _ IH]; [reflexivity|].
  cbn [element_calls List.filter]. rewrite length_app, IH, (validated_calls e v Hv).
  by destruct (has_callback e).
Qed.

(** An element that accepts a value has made one call, of its callback, when
    it has one, and no call otherwise. *)
Lemma validated_call e value :
  validates e value ->
  match Element_Submit e with
  | Some (Some f) =>
      exists c, fst (Element_submit e value) = [c]
                /\ Call_func c = f /\ is_element_call c = true
  | Some None | None => fst (Element_submit e value) = []
  end.
Proof.
  assert (Hdrop : forall format d,
    snd (submit_as format d value) = Return None ->
    match Dropdown.Submit d with
    | Some f =>
        exists c, fst (submit_as format d value) = [c]
                  /\ Call_func c = f /\ is_element_call c = true
    | None => fst (submit_as format d value) = []
    end).
  { intros format d. unfold submit_as.
    destruct (Dropdown.Submit d) as [f|]; [|reflexivity].
    destruct (as_Number value) as [n ok]. destruct (Int64 n) as [val err].
    destruct (_ || _); [discriminate|]. destruct (_ || _); [discriminate|].
    destruct (slice_at _ _); [|discriminate]. intros _. eexists. done. }
  unfold validates.
  destruct e as [l | i | t | s | d | d]; cbn [Element_submit Element_Submit].
  - reflexivity.
  - unfold Input.submit. destruct (Input.Submit i); [|reflexivity].
    destruct (as_string value) as [text ok]. destruct (negb ok); [discriminate|].
    destruct (negb _); [discriminate|]. intros _. eexists. done.
  - unfold Toggle.submit. destruct (Toggle.Submit t); [|reflexivity].
    destruct (as_bool value) as [b ok]. destruct (negb ok); [discriminate|].
    intros _. eexists. done.
  - unfold Slider.submit. destruct (Slider.Submit s); [|reflexivity].
    destruct (as_Number value) as [n ok]. destruct (Float64 n) as [val err].
    destruct (_ || _); [discriminate|]. destruct (_ || _); [discriminate|].
    intros _. eexists. done.
  - rewrite Dropdown_submit_as. apply Hdrop.
  - rewrite StepSlider_submit_as. apply Hdrop.
Qed.

Lemma element_calls_concat es : forall vs,
  element_calls es vs
  = concat (zip_with (fun e v => fst (Element_submit e v)) es vs).
Proof.
  induction es as [|e es IH]; intros [|v vs]; try reflexivity.
  cbn [element_calls zip_with concat]. by rewrite IH.
Qed.

Lemma validated_calls_each es vs :
  Forall2 validates es vs ->
  Forall2 (fun e tr =>
             match Element_Submit e with
             | Some (Some f) =>
                 exists c, tr = [c] /\ Call_func c = f /\ is_element_call c = true
             | Some None | None => tr = []
             end)
          es (zip_with (fun e v => fst (Element_submit e v)) es vs).
Proof.
  induction 1 as [|e v es vs Hv _ IH]; cbn [zip_with]; constructor; [|done].
  by apply validated_call.
Qed.

(** X14. When [Custom.SubmitJSON] returns nil on data that is not nil, read
    by a decoder that hands over decoded values, the calls it has made are,
    in the order of [Elements], exactly one call for each element that has a
    callback, a call of that callback, and none for a label or an element
    without callback, followed by the call of the form's [Submit] when that
    is not nil. Their number is therefore the number of elements with a
    callback, plus one when the form has a [Submit]. *)
Theorem Custom_SubmitJSON_calls_once (Decode : string -> result (slice any))
    (form : Custom.t) (data : string)
    (Hdecoded : forall inputData,
       Decode data = Ok inputData -> Forall decoded (elems inputData))
    (Hnil : snd (Custom.SubmitJSON Decode form (Some data)) = Return None) :
  exists calls : list trace,
    fst (Custom.SubmitJSON Decode form (Some data))
    = concat calls
      ++ call_if_set (Custom.Submit form) (fun f => CallForm f false None)
    /\ Forall2 (fun e tr =>
                  match Element_Submit e with
                  | Some (Some f) =>
                      exists c, tr = [c] /\ Call_func c = f
                                /\ is_element_call c = true
                  | Some None | None => tr = []
                  end)
               (elems (Custom.Elements form)) calls
    /\ length (fst (Custom.SubmitJSON Decode form (Some data)))
       = (length (List.filter has_callback (elems (Custom.Elements form)))
          + match Custom.Submit form with Some _ => 1 | None => 0 end)%nat.
Proof.
  unfold Custom.SubmitJSON in *.
  destruct (Decode data) as [inputData|err]; [|discriminate].
  destruct (Z.eqb_spec (len (Custom.Elements form)) (len inputData)) as [Hlen|Hlen];
    cbn [negb] in *; [|discriminate].
  assert (Hlength : length (elems (Custom.Elements form)) = length (elems inputData))
    by (unfold len in Hlen; lia).
  rewrite (submit_from_submit_all inputData _ 0 (elems inputData)) in * by done.
  destruct (submit_all_cases _ _ Hlength)
    as [Hall | (pre & f & post & vpre & vf & vpost & err & Hes & Hvs & Hpre & Herr)].
  - rewrite (submit_all_validated _ _ Hall). cbn [fst].
    eexists. split; [by rewrite element_calls_concat|].
    split; [by apply validated_calls_each|].
    rewrite length_app, (element_calls_length _ _ Hall).
    by destruct (Custom.Submit form).
  - rewrite Hes, Hvs, (submit_all_first_error _ _ _ _ _ _ _ Hpre Herr) in Hnil.
    discriminate.
Qed.

Lemma Custom_SubmitJSON_calls_once_witness :
  exists calls : list trace,
    fst (Custom.SubmitJSON (table_decoder answers) survey (Some "[true,2]"))
    = concat calls
      ++ call_if_set (Custom.Submit survey) (fun f => CallForm f false None)
    /\ Forall2 (fun e tr =>
                  match Element_Submit e with
                  | Some (Some f) =>
                      exists c, tr = [c] /\ Call_func c = f
                                /\ is_element_call c = true
                  | Some None | None => tr = []
                  end)
               (elems (Custom.Elements survey)) calls
    /\ length (fst (Custom.SubmitJSON (table_decoder answers) survey (Some "[true,2]")))
       = (length (List.filter has_callback (elems (Custom.Elements survey)))
          + match Custom.Submit survey with Some _ => 1 | None => 0 end)%nat.
Proof.
  apply (Custom_SubmitJSON_calls_once (table_decoder answers) survey "[true,2]").
  - intros inputData H. vm_compute in H. injection H as <-.
    repeat constructor. vm_compute. eexists. reflexivity.
  - vm_compute. reflexivity.
Defined.

(** X16. On a decoded value, a call made by the [submit] of an element goes
    to the element's own callback, [submit] then returns nil, and the
    arguments are the value received: the string, which is valid UTF-8; the
    boolean; the float64 that [Float64] reads without error, not below [Min]
    and not above [Max]; the index that [Int64] reads without error, which
    lies within [Options], with the option found there. No button or form
    callback is called. *)
Theorem Element_call_arguments (e : Element) (value : any) (c : Call)
    (Hdecoded : decoded value)
    (Hcall : c ∈ fst (Element_submit e value)) :
  Element_Submit e = Some (Some (Call_func c))
  /\ snd (Element_submit e value) = Return None
  /\ match c with
     | CallInput _ text =>
         value = VString text /\ utf8.ValidString text = true
     | CallToggle _ enabled => value = VBool enabled
     | CallSlider _ v =>
         exists n s, value = VNumber n /\ e = ESlider s /\ Float64 n = (v, None)
           /\ SFltb v (Slider.Min s) = false /\ SFltb (Slider.Max s) v = false
     | CallDropdown _ index option =>
         exists n d, value = VNumber n /\ (e = EDropdown d \/ e = EStepSlider d)
           /\ Int64 n = (index, None)
           /\ 0 <= index < len (Dropdown.Options d)
           /\ slice_at (Dropdown.Options d) index = Some option
     | CallButton _ _ | CallForm _ _ _ => False
     end.
Proof.
  assert (Hdrop : forall format d, c ∈ fst (submit_as format d value) ->
    Dropdown.Submit d = Some (Call_func c)
    /\ snd (submit_as format d value) = Return None
    /\ match c with
       | CallDropdown _ index option =>
           exists n, value = VNumber n /\ Int64 n = (index, None)
             /\ 0 <= index < len (Dropdown.Options d)
             /\ slice_at (Dropdown.Options d) index = Some option
       | _ => False
       end).
  { intros format d. unfold submit_as.
    destruct (Dropdown.Submit d) as [g|]; [|by intros ?%elem_of_nil].
    destruct value as [| b | n | s0 | l | m]; cbn [as_Number];
      try (by intros ?%elem_of_nil).
    destruct (Int64 n) as [val [err|]] eqn:E; [by intros ?%elem_of_nil|].
    cbn [negb orb bool_decide].
    rewrite bool_decide_eq_false_2 by (by intros [? [=]]).
    destruct (Z.ltb_spec val 0); [by intros ?%elem_of_nil|].
    destruct (Z.leb_spec (len (Dropdown.Options d)) val); [by intros ?%elem_of_nil|].
    cbn [orb].
    destruct (slice_at (Dropdown.Options d) val) as [o|] eqn:Eo;
      [|by intros ?%elem_of_nil].
    intros ->%list_elem_of_singleton. cbn [fst snd Call_func].
    split; [done|]. split; [done|]. exists n. repeat split; (done || lia). }
  destruct e as [l | i | t | s | d | d]; cbn [Element_submit Element_Submit] in *.
  - by apply elem_of_nil in Hcall.
  - unfold Input.submit in *.
    destruct (Input.Submit i) as [g|]; [|by apply elem_of_nil in Hcall].
    destruct value as [| b | n | s0 | l | m]; cbn [as_string negb] in *;
      try (by apply elem_of_nil in Hcall).
    destruct (utf8.ValidString s0) eqn:Eu; cbn [negb] in *;
      [|by apply elem_of_nil in Hcall].
    apply list_elem_of_singleton in Hcall as ->. done.
  - unfold Toggle.submit in *.
    destruct (Toggle.Submit t) as [g|]; [|by apply elem_of_nil in Hcall].
    destruct value as [| b | n | s0 | l | m]; cbn [as_bool negb] in *;
      try (by apply elem_of_nil in Hcall).
    apply list_elem_of_singleton in Hcall as ->. done.
  - unfold Slider.submit in *.
    destruct (Slider.Submit s) as [g|]; [|by apply elem_of_nil in Hcall].
    destruct value as [| b | n | s0 | l | m]; cbn [as_Number] in *;
      try (by apply elem_of_nil in Hcall).
    destruct (Float64 n) as [val [err|]] eqn:E; [by apply elem_of_nil in Hcall|].
    rewrite bool_decide_eq_false_2 in * by (by intros [? [=]]).
    cbn [negb orb] in *.
    destruct (SFltb val (Slider.Min s)) eqn:Emin; [by apply elem_of_nil in Hcall|].
    destruct (SFltb (Slider.Max s) val) eqn:Emax; [by apply elem_of_nil in Hcall|].
    cbn [orb] in *. apply list_elem_of_singleton in Hcall as ->.
    split; [done|]. split; [done|]. exists n, s. done.
  - rewrite Dropdown_submit_as in *.
    destruct (Hdrop _ d Hcall) as (H1 & H2 & H3).
    split; [by rewrite H1|]. split; [done|].
    destruct c; try done. destruct H3 as (n & ? & ? & ? & ?). exists n, d. eauto 10.
  - rewrite StepSlider_submit_as in *.
    destruct (Hdrop _ d Hcall) as (H1 & H2 & H3).
    split; [by rewrite H1|]. split; [done|].
    destruct c; try done. destruct H3 as (n & ? & ? & ? & ?). exists n, d. eauto 10.
Qed.

Lemma Element_call_arguments_witness :
  Element_Submit (EDropdown colours)
  = Some (Some (Call_func (CallDropdown 7%nat 2 "blue")))
  /\ snd (Element_submit (EDropdown colours) (VNumber "2")) = Return None
  /\ exists n d, VNumber "2" = VNumber n
       /\ (EDropdown colours = EDropdown d \/ EDropdown colours = EStepSlider d)
       /\ Int64 n = (2, None)
       /\ 0 <= 2 < len (Dropdown.Options d)
       /\ slice_at (Dropdown.Options d) 2 = Some "blue".
Proof.
  apply (Element_call_arguments (EDropdown colours) (VNumber "2")
           (CallDropdown 7%nat 2 "blue")).
  - eapply decoded_literal. vm_compute. reflexivity.
  - vm_compute. by apply list_elem_of_singleton.
Defined.
